(** * Travel safety analyzer: the scoring and recommendation rules of app.py

    A shallow embedding of the pure decision logic of [src/app.py]
    (UV bands, weather-code table, safety rating and its label, beach
    score, beach packing list, the tide selection loop and the distance
    fallback; the assembly of the weather record and its fallback, the
    simulated water quality and facilities with their 24-hour cache,
    the start of the report, the tide part of the page and the
    streamed guide), followed by the
    properties the specification states about them and by further
    properties read off the code.

    Numbers.  The weather readings are JSON numbers; every finite one is
    a rational, and the code only compares them with integer constants
    and subtracts small integers from 8.0, all of which is exact in
    binary floating point.  They are modelled as [Q].  Integer scores
    are [Z].  Instants are [Z] (microseconds since the epoch, UTC).

    Text.  A [str] is modelled as the [string] of its UTF-8 bytes.
    [in] is the substring test; for a valid encoding a needle occurs
    among the bytes exactly when it occurs among the characters.
    [len] counts characters, that is the bytes that do not continue a
    character.  [lower] gives the lower-cased text as far as ASCII
    letters go, see [Py.lower]. *)

From Stdlib Require Import ZArith QArith Qround Lia Bool Ascii String List.
From stdpp Require Import base option list gmap strings.

Local Open Scope Z_scope.

(** ** Python built-ins used by the program *)

Module Py.

(** [a < b] on numbers. *)
Definition lt (a b : Q) : bool :=
  (Qnum a * Zpos (Qden b) <? Qnum b * Zpos (Qden a))%Z.

(** [a > b] *)
Definition gt (a b : Q) : bool := lt b a.

(** [a <= b] *)
Definition le (a b : Q) : bool := Qle_bool a b.

(** [a >= b] *)
Definition ge (a b : Q) : bool := Qle_bool b a.

(** [max(a, b)]: the first argument is kept unless the second is
    strictly larger. *)
Definition max (a b : Q) : Q := if gt b a then b else a.

(** [min(a, b)]: the first argument is kept unless the second is
    strictly smaller. *)
Definition min (a b : Q) : Q := if lt b a then b else a.

(** [max] and [min] on [int]. *)
Definition maxz (a b : Z) : Z := if (a <? b)%Z then b else a.
Definition minz (a b : Z) : Z := if (b <? a)%Z then b else a.

(** Nearest integer, ties to the even neighbour. *)
Definition round_half_even (x : Q) : Z :=
  let f := Qfloor x in
  match Qcompare (x - inject_Z f) (1 # 2) with
  | Lt => f
  | Gt => (f + 1)%Z
  | Eq => if Z.even f then f else (f + 1)%Z
  end.

(** [round(x, 1)] on the exact value of [x]. *)
Definition round1 (x : Q) : Q :=
  (inject_Z (round_half_even (x * 10)) / 10)%Q.

(** [needle in s] for two [str]: [needle] occurs in [s] as a block of
    consecutive characters. *)
Fixpoint str_in (needle s : string) : bool :=
  if String.prefix needle s then true
  else match s with
       | EmptyString => false
       | String _ s' => str_in needle s'
       end.

(** [str.lower] on an ASCII character. *)
Definition lower_char (c : ascii) : ascii :=
  let n := nat_of_ascii c in
  if ((65 <=? n)%nat && (n <=? 90)%nat)%bool then ascii_of_nat (n + 32) else c.

(** The byte with the given number. *)
Definition is_byte (n : nat) (c : ascii) : bool :=
  Ascii.eqb c (ascii_of_nat n).

(** [s.lower()].  ASCII capitals become small letters.  Two characters
    outside ASCII have an ASCII letter in their lower case and are
    written out: U+0130 (bytes C4 B0) becomes i followed by U+0307
    (bytes CC 87), and U+212A (bytes E2 84 AA) becomes k.  Every other
    character outside ASCII is left as it is: [str.lower] may replace
    it, but only by characters outside ASCII, so that the ASCII letters
    of the result and what lies between them are as in Python, which is
    all a test [needle in s.lower()] with an ASCII needle looks at.
    The text itself is exact for ASCII input and for these two
    characters only. *)
Fixpoint lower (s : string) : string :=
  match s with
  | EmptyString => EmptyString
  | String c s1 =>
      match s1 with
      | String c2 s2 =>
          if is_byte 196 c && is_byte 176 c2
          then String "i" (String (ascii_of_nat 204)
                 (String (ascii_of_nat 135) (lower s2)))
          else
            match s2 with
            | String c3 s3 =>
                if is_byte 226 c && is_byte 132 c2 && is_byte 170 c3
                then String "k" (lower s3)
                else String (lower_char c) (lower s1)
            | EmptyString => String (lower_char c) (lower s1)
            end
      | EmptyString => String (lower_char c) (lower s1)
      end
  end.

(** [len(s)]: the number of characters, one for each byte that is not
    a continuation byte (10xxxxxx). *)
Fixpoint len (s : string) : nat :=
  match s with
  | EmptyString => 0
  | String c s' =>
      let n := nat_of_ascii c in
      if ((128 <=? n)%nat && (n <? 192)%nat)%bool then len s' else S (len s')
  end.

(** [any(p(h) for h in l)] *)
Definition any {A} (p : A -> bool) (l : list A) : bool := existsb p l.

End Py.

(** ** Utility functions *)

(** [uv_risk_level(uv_index)] *)
Definition uv_risk_level (uv_index : Q) : string :=
  if Py.le uv_index 2 then "Low"
  else if Py.le uv_index 5 then "Moderate"
  else if Py.le uv_index 7 then "High"
  else if Py.le uv_index 10 then "Very High"
  else "Extreme".

(** The dictionary literal of [translate_weather_code]. *)
Definition weather_codes : gmap Z string :=
  <[0 := "Clear sky"]> (<[1 := "Mainly clear"]> (<[2 := "Partly cloudy"]>
  (<[3 := "Overcast"]> (<[45 := "Fog"]> (<[51 := "Light drizzle"]>
  (<[61 := "Light rain"]> (<[80 := "Rain showers"]>
  (<[95 := "Thunderstorm"]> ∅)))))))).

(** [translate_weather_code(code)]: [dict.get] with a default. *)
Definition translate_weather_code (code : Z) : string :=
  default "Unknown weather conditions" (weather_codes !! code).

(** The dictionary [get_weather] returns. *)
Record Weather := mkWeather {
  temp : Q;
  humidity : Q;
  wind : Q;
  uv_index : Q;
  uv_max : Q;
  conditions : string;
  forecast_max : Q;
  forecast_min : Q
}.

(** The value of [rating] when control reaches the [return] of
    [get_safety_rating]: the four [if] statements run in sequence on
    the one variable. *)
Definition rating_before_bounds (weather : Weather) : Q :=
  let rating := 8%Q in
  let rating :=
    if Py.str_in "Thunderstorm" (conditions weather) then (rating - 4)%Q
    else if Py.str_in "Rain" (conditions weather) then (rating - 2)%Q
    else if Py.str_in "Fog" (conditions weather) then (rating - 1)%Q
    else rating in
  let rating :=
    if Py.gt (temp weather) 35 then (rating - 2)%Q
    else if Py.lt (temp weather) 10 then (rating - 1)%Q
    else rating in
  let rating :=
    if Py.gt (wind weather) 30 then (rating - 3)%Q
    else if Py.gt (wind weather) 20 then (rating - 1)%Q
    else rating in
  let rating :=
    if Py.gt (uv_index weather) 8 then (rating - 1)%Q
    else rating in
  rating.

(** [get_safety_rating(weather)] *)
Definition get_safety_rating (weather : Weather) : Q :=
  Py.max 0 (Py.min 10 (Py.round1 (rating_before_bounds weather))).

(** The label shown next to the rating by [display_location_report]
    (and, with the same expression, by [display_beach_report]). *)
Definition safety_label (safety_rating : Q) : string :=
  if Py.ge safety_rating 8 then "Very Safe"
  else if Py.ge safety_rating 6 then "Safe"
  else if Py.ge safety_rating 4 then "Caution Advised"
  else "Not Recommended".

(** ** Distance estimation *)

Section Distance.

(** The geocoding call and geopy's [great_circle(...).km] are outside
    the program; both are taken as given.  A coordinate lookup yields
    a latitude, a longitude and an address, each of which may be
    [None]. *)
Variable get_coordinates : string -> option Q * option Q * option string.
Variable great_circle_km : Q * Q -> Q * Q -> Q.

(** [None in l] *)
Definition none_in (l : list (option Q)) : bool :=
  existsb (fun x => match x with None => true | Some _ => false end) l.

(** [estimate_flight_distance(origin, destination)] *)
Definition estimate_flight_distance (origin destination : string) : Q :=
  let '(orig_lat, orig_lng, _) := get_coordinates origin in
  let '(dest_lat, dest_lng, _) := get_coordinates destination in
  if none_in [orig_lat; orig_lng; dest_lat; dest_lng] then 0%Q
  else (* all four are numbers here *)
       match orig_lat, orig_lng, dest_lat, dest_lng with
       | Some a, Some b, Some c, Some d => great_circle_km (a, b) (c, d)
       | _, _, _, _ => 0%Q
       end.

End Distance.

(** ** Beach rules *)

Definition base_items : list string :=
  ["🧴 SPF 50+ Sunscreen"; "🩱 Swimwear"; "🏖️ Beach towel";
   "🕶️ UV-protection sunglasses"; "💧 Reusable water bottle"].

Definition hat_item : string := "🧢 UV-protective hat/clothing".
Definition fan_item : string := "🌬️ Portable fan/misting bottle".
Definition windbreaker_item : string := "🧥 Light windbreaker".
Definition waterproof_item : string := "☔ Waterproof bag/cover".

(** [items.append(x)] *)
Definition append (items : list string) (x : string) : list string :=
  items ++ [x].

(** [generate_beach_packing_list(weather, uv_index)] *)
Definition generate_beach_packing_list (weather : Weather) (uv_index : Q)
  : list string :=
  let items := base_items in
  let items := if Py.gt uv_index 8 then append items hat_item else items in
  let items :=
    if Py.gt (temp weather) 30 then append items fan_item else items in
  let items :=
    if Py.gt (wind weather) 15 then append items windbreaker_item
    else items in
  let items :=
    if Py.str_in "rain" (Py.lower (conditions weather))
    then append items waterproof_item else items in
  items.

(** The value of [score] when control reaches the [return] of
    [get_beach_safety_score]. *)
Definition score_before_bounds
  (uv_index : Q) (hazards : list string) (has_lifeguard : bool) : Z :=
  let score := 8 in
  let score :=
    if Py.gt uv_index 8 then score - 2
    else if Py.gt uv_index 5 then score - 1
    else score in
  let score :=
    if Py.any (fun h => Py.str_in "tsunami" (Py.lower h)) hazards
    then score - 3
    else if Py.any (fun h => Py.str_in "cyclone" (Py.lower h)) hazards
    then score - 2
    else score in
  let score := if has_lifeguard then score + 1 else score in
  score.

(** [get_beach_safety_score(uv_index, hazards, has_lifeguard)] *)
Definition get_beach_safety_score
  (uv_index : Q) (hazards : list string) (has_lifeguard : bool) : Z :=
  Py.maxz 1 (Py.minz 10 (score_before_bounds uv_index hazards has_lifeguard)).

(** ** Tide selection *)

(** [tide.get("height", "N/A")] *)
Inductive Height :=
  | HeightValue (h : Q)
  | HeightNA.

(** One entry of [data["data"]], its ["time"] already read as an
    instant. *)
Record Tide := mkTide {
  tide_time : Z;
  tide_type : string;
  tide_height : Height
}.

(** The dictionaries stored in [next_high] and [next_low]. *)
Record TideMark := mkMark {
  mark_time : Z;
  mark_height : Height
}.

(** The two loop variables. *)
Record TideState := mkState {
  next_high : option TideMark;
  next_low : option TideMark
}.

(** [not nxt or tide_time < nxt["time"]] *)
Definition improves (t : Z) (nxt : option TideMark) : bool :=
  match nxt with
  | None => true
  | Some m => t <? mark_time m
  end.

(** One iteration of the loop body. *)
Definition tide_step (now_utc : Z) (st : TideState) (tide : Tide)
  : TideState :=
  if tide_time tide <? now_utc then st
  else if String.eqb (tide_type tide) "high" then
    if improves (tide_time tide) (next_high st)
    then mkState (Some (mkMark (tide_time tide) (tide_height tide)))
                 (next_low st)
    else st
  else if String.eqb (tide_type tide) "low" then
    if improves (tide_time tide) (next_low st)
    then mkState (next_high st)
                 (Some (mkMark (tide_time tide) (tide_height tide)))
    else st
  else st.

(** The loop of [get_tide_data] over [data["data"]], from
    [next_high = next_low = None]. *)
Definition select_tides (now_utc : Z) (data : list Tide) : TideState :=
  fold_left (tide_step now_utc) data (mkState None None).

(** What [get_tide_data] returns once the response is parsed. *)
Inductive TideResult :=
  | TideError (msg : string)
  | TideOk (st : TideState).

Definition get_tide_data (now_utc : Z) (data : list Tide) : TideResult :=
  match data with
  | [] => TideError "No tide data available"
  | _ => TideOk (select_tides now_utc data)
  end.

(** ** Weather provider *)

(** The fields [get_weather] reads from the Open-Meteo answer. *)
Record WeatherResponse := mkResponse {
  status_code : Z;
  current_temperature_2m : Q;
  current_relative_humidity_2m : Q;
  current_wind_speed_10m : Q;
  current_weather_code : Z;
  current_uv_index : Q;
  daily_uv_index_max : list Q;
  hourly_temperature_2m : list Q
}.

(** [max(l)] and [min(l)] on a list: [None] stands for the
    [ValueError] on an empty list; the first extreme element is kept. *)
Definition max_list (l : list Q) : option Q :=
  match l with
  | [] => None
  | x :: l' => Some (fold_left Py.max l' x)
  end.

Definition min_list (l : list Q) : option Q :=
  match l with
  | [] => None
  | x :: l' => Some (fold_left Py.min l' x)
  end.

(** The dictionary after the [# Fallback] comment. *)
Definition fallback_weather : Weather :=
  mkWeather 28 65 12 (65 # 10) (82 # 10) "Sunny" 32 26.

(** [get_weather(lat, lng)] on the outcome of the request: [None] when
    the request or the decoding of its body raised.  Every exception
    inside the [try] (an empty [uv_index_max], an empty hourly list)
    ends in the fallback, as does a status other than 200. *)
Definition get_weather (response : option WeatherResponse) : Weather :=
  match response with
  | Some data =>
      if status_code data =? 200 then
        match daily_uv_index_max data,
              max_list (take 24 (hourly_temperature_2m data)),
              min_list (take 24 (hourly_temperature_2m data)) with
        | uv_max0 :: _, Some hi, Some lo =>
            mkWeather (current_temperature_2m data)
                      (current_relative_humidity_2m data)
                      (current_wind_speed_10m data)
                      (current_uv_index data)
                      uv_max0
                      (translate_weather_code (current_weather_code data))
                      hi lo
        | _, _, _ => fallback_weather
        end
      else fallback_weather
  | None => fallback_weather
  end.

(** ** Cached calls *)

(** [st.cache_data(ttl=...)]: the cache keeps, per argument, the value
    of the last run of the function and the instant of that run.  A
    call whose argument has an entry that is still served gets the
    stored value and the function is not run; otherwise the function
    runs and its value replaces the entry.  When an entry stops being
    served is Streamlit's rule and is taken as given: [still_served ttl
    t0 t] says that an entry stored at [t0] is served to a call at [t]. *)
Section CacheData.

Context {K V : Type}.
Variable same_key : K -> K -> bool.
Variable still_served : Z -> Z -> Z -> bool.

Record CacheEntry := mkEntry {
  entry_key : K;
  entry_value : V;
  entry_time : Z
}.

(** The entry of an argument is the one stored last. *)
Fixpoint cache_entry (k : K) (cache : list CacheEntry) : option CacheEntry :=
  match cache with
  | [] => None
  | e :: rest => if same_key (entry_key e) k then Some e else cache_entry k rest
  end.

Definition cache_get (ttl now : Z) (k : K) (cache : list CacheEntry)
  : option V :=
  match cache_entry k cache with
  | Some e =>
      if still_served ttl (entry_time e) now then Some (entry_value e)
      else None
  | None => None
  end.

(** A call at instant [now] of a function decorated with
    [st.cache_data(ttl)], whose body at that instant is [body]. *)
Definition cache_data (ttl : Z) (body : K -> V) (now : Z) (k : K)
  (cache : list CacheEntry) : V * list CacheEntry :=
  match cache_get ttl now k cache with
  | Some v => (v, cache)
  | None => let v := body k in (v, mkEntry k v now :: cache)
  end.

End CacheData.

Arguments CacheEntry : clear implicits.

(** ** Simulated beach data *)

Definition qualities : list string := ["Excellent"; "Good"; "Fair"; "Poor"].

(** The body of [get_water_quality(location)], run at the given hour
    of the day; an index outside the list would raise and give
    "Unknown". *)
Definition water_quality_body (hour : Z) (location : string) : string :=
  match qualities !! Z.to_nat ((Z.of_nat (Py.len location) + hour) mod 4) with
  | Some quality => quality
  | None => "Unknown"
  end.

(** The body of [get_beach_facilities(lat, lng)]: it reads the
    session's ['location'] entry, [None] when that is not set, and
    neither of its arguments. *)
Definition beach_facilities_body (session_location : option string)
  (coordinates : Q * Q) : list string :=
  let location := default EmptyString session_location in
  let facilities :=
    if Py.str_in "beach" (Py.lower location)
    then ["Lifeguard"; "First Aid"; "Showers"; "Restrooms"]
    else [] in
  let facilities :=
    if Py.str_in "goa" (Py.lower location)
    then facilities ++ ["Water Sports"; "Beach Shacks"]
    else if Py.str_in "puri" (Py.lower location)
    then facilities ++ ["Changing Rooms"; "Beach Chairs"]
    else facilities in
  take 4 facilities.

(** Two coordinate pairs are the same cache argument when their numbers
    are equal. *)
Definition same_coordinates (a b : Q * Q) : bool :=
  Qeq_bool a.1 b.1 && Qeq_bool a.2 b.2.

Section CachedBeachData.

Variable still_served : Z -> Z -> Z -> bool.

(** [get_water_quality(location)], cached for 24 hours per location,
    called at instant [now] when the hour of the day is [hour]. *)
Definition get_water_quality (now hour : Z) (location : string)
  (cache : list (CacheEntry string string))
  : string * list (CacheEntry string string) :=
  cache_data String.eqb still_served 86400
    (water_quality_body hour) now location cache.

(** [get_beach_facilities(lat, lng)], cached for 24 hours per pair of
    coordinates, called at instant [now] with the session as it is
    then. *)
Definition get_beach_facilities (now : Z) (session_location : option string)
  (lat lng : Q) (cache : list (CacheEntry (Q * Q) (list string)))
  : list string * list (CacheEntry (Q * Q) (list string)) :=
  cache_data same_coordinates still_served 86400
    (beach_facilities_body session_location) now (lat, lng) cache.



End CachedBeachData.

(** The note under the water quality in [display_beach_report]. *)
Definition swimming_note (water_quality : string) : string :=
  if existsb (String.eqb water_quality) ["Good"; "Excellent"]
  then "Safe for swimming" else "Check conditions".

(** ** Report assembly *)

(** The test that sends [display_location_report] into
    [display_beach_report]. *)
Definition is_beach_location (location : string) : bool :=
  Py.str_in "beach" (Py.lower location)
  || Py.any (fun x => Py.str_in x (Py.lower location))
       ["coast"; "shore"; "seaside"].

(** [not x] on a coordinate: [None] and zero are false values. *)
Definition falsy (x : option Q) : bool :=
  match x with
  | None => true
  | Some q => Qeq_bool q 0
  end.

(** How [display_location_report] starts: a warning for an empty
    location, an error when no coordinates are found, else the report,
    with or without the beach part.  The entry it writes to the session
    before the report is not part of this outcome. *)
Inductive ReportStart :=
  | WarnEnterLocation
  | ErrorNoCoordinates
  | Analyze (lat lng : option Q) (beach : bool).

Section Report.

Variable get_coordinates : string -> option Q * option Q * option string.

Definition report_start (location : string) : ReportStart :=
  if String.eqb location EmptyString then WarnEnterLocation
  else
    let '(lat, lng, _) := get_coordinates location in
    if falsy lat || falsy lng then ErrorNoCoordinates
    else Analyze lat lng (is_beach_location location).

End Report.

(** What the tide part of [display_beach_report] puts on the page. *)
Inductive TideWidget :=
  | HighTideMetric (m : TideMark)
  | LowTideMetric (m : TideMark)
  | TideWarning (msg : string).

Definition tide_section (tide_data : TideResult) : list TideWidget :=
  match tide_data with
  | TideOk st =>
      (match next_high st with Some m => [HighTideMetric m] | None => [] end)
      ++ (match next_low st with Some m => [LowTideMetric m] | None => [] end)
  | TideError msg => [TideWarning msg]
  end.

(** The loop over the streamed guide: [full_response] grows by each
    fragment that is not [None], and the container is redrawn with a
    cursor after each; it is drawn once more, without cursor, at the
    end.  The result lists what the container showed, in order. *)
Definition cursor : string := "▌".

Definition stream_step (st : string * list string) (chunk : option string)
  : string * list string :=
  match chunk with
  | Some word =>
      let full_response := (st.1 ++ word)%string in
      (full_response, st.2 ++ [(full_response ++ cursor)%string])
  | None => st
  end.

Definition stream_guide (chunks : list (option string)) : list string :=
  let st := fold_left stream_step chunks (EmptyString, []) in
  st.2 ++ [st.1].

(** ** The rules as the specification words them *)

Module Spec.

(** [needle] occurs in [s]. *)
Definition occurs (needle s : string) : Prop :=
  exists pre post : string, s = (pre ++ needle ++ post)%string.

(** [needle], written in small letters, occurs in [s] when letter case
    is ignored: it occurs in the lower-cased text. *)
Definition occurs_nocase (needle s : string) : Prop :=
  exists pre post : string, Py.lower s = (pre ++ needle ++ post)%string.

(** UV bands, inclusive upper bounds. *)
Inductive uv_band (uv : Q) : string -> Prop :=
  | band_low : (uv <= 2)%Q -> uv_band uv "Low"
  | band_moderate : (2 < uv)%Q -> (uv <= 5)%Q -> uv_band uv "Moderate"
  | band_high : (5 < uv)%Q -> (uv <= 7)%Q -> uv_band uv "High"
  | band_very_high : (7 < uv)%Q -> (uv <= 10)%Q -> uv_band uv "Very High"
  | band_extreme : (10 < uv)%Q -> uv_band uv "Extreme".

(** The bands in rising order of risk. *)
Definition band_rank (band : string) : nat :=
  if String.eqb band "Low" then 0
  else if String.eqb band "Moderate" then 1
  else if String.eqb band "High" then 2
  else if String.eqb band "Very High" then 3
  else 4.

(** The codes the weather table knows. *)
Definition known_codes : gset Z :=
  {[ 0; 1; 2; 3; 45; 51; 61; 80; 95 ]}.

(** *** General safety score: one deduction per category *)

(** Condition text: the first of Thunderstorm, Rain, Fog that occurs. *)
Inductive condition_rule (text : string) : Q -> Prop :=
  | cond_thunderstorm :
      occurs "Thunderstorm" text -> condition_rule text 4
  | cond_rain :
      ~ occurs "Thunderstorm" text -> occurs "Rain" text ->
      condition_rule text 2
  | cond_fog :
      ~ occurs "Thunderstorm" text -> ~ occurs "Rain" text ->
      occurs "Fog" text -> condition_rule text 1
  | cond_other :
      ~ occurs "Thunderstorm" text -> ~ occurs "Rain" text ->
      ~ occurs "Fog" text -> condition_rule text 0.

(** Temperature: above 35, else below 10. *)
Inductive temperature_rule (t : Q) : Q -> Prop :=
  | temp_hot : (35 < t)%Q -> temperature_rule t 2
  | temp_cold : (t <= 35)%Q -> (t < 10)%Q -> temperature_rule t 1
  | temp_mild : (t <= 35)%Q -> (10 <= t)%Q -> temperature_rule t 0.

(** Wind: above 30, else above 20. *)
Inductive wind_rule (v : Q) : Q -> Prop :=
  | wind_strong : (30 < v)%Q -> wind_rule v 3
  | wind_fresh : (v <= 30)%Q -> (20 < v)%Q -> wind_rule v 1
  | wind_calm : (v <= 20)%Q -> wind_rule v 0.

(** UV index: above 8. *)
Inductive uv_rule (u : Q) : Q -> Prop :=
  | uv_strong : (8 < u)%Q -> uv_rule u 1
  | uv_weak : (u <= 8)%Q -> uv_rule u 0.

(** Base 8.0 minus the sum of the four deductions. *)
Definition raw_score (dc dt dw du : Q) : Q := (8 - (dc + dt + dw + du))%Q.

(** Clamp to [[lo, hi]]. *)
Definition clamp (lo hi x : Q) : Q :=
  if Qlt_le_dec x lo then lo else if Qlt_le_dec hi x then hi else x.

(** Label thresholds, inclusive lower bounds. *)
Inductive label_rule (score : Q) : string -> Prop :=
  | label_very_safe : (8 <= score)%Q -> label_rule score "Very Safe"
  | label_safe : (6 <= score)%Q -> (score < 8)%Q -> label_rule score "Safe"
  | label_caution :
      (4 <= score)%Q -> (score < 6)%Q -> label_rule score "Caution Advised"
  | label_not_recommended :
      (score < 4)%Q -> label_rule score "Not Recommended".

(** The label, read off the sum of the deductions. *)
Definition label_of_total (total : Q) : string :=
  if Qle_bool total 0 then "Very Safe"
  else if Qle_bool total 2 then "Safe"
  else if Qle_bool total 4 then "Caution Advised"
  else "Not Recommended".

(** *** Beach score *)

(** UV: above 8, else above 5. *)
Inductive beach_uv_rule (uv : Q) : Z -> Prop :=
  | beach_uv_strong : (8 < uv)%Q -> beach_uv_rule uv 2
  | beach_uv_medium : (uv <= 8)%Q -> (5 < uv)%Q -> beach_uv_rule uv 1
  | beach_uv_weak : (uv <= 5)%Q -> beach_uv_rule uv 0.

(** Some hazard text mentions [word], in any letter case. *)
Definition mentions (word : string) (hazards : list string) : Prop :=
  Exists (occurs_nocase word) hazards.

(** Hazards: tsunami first, else cyclone. *)
Inductive hazard_rule (hazards : list string) : Z -> Prop :=
  | hazard_tsunami : mentions "tsunami" hazards -> hazard_rule hazards 3
  | hazard_cyclone :
      ~ mentions "tsunami" hazards -> mentions "cyclone" hazards ->
      hazard_rule hazards 2
  | hazard_none :
      ~ mentions "tsunami" hazards -> ~ mentions "cyclone" hazards ->
      hazard_rule hazards 0.

Definition lifeguard_bonus (has_lifeguard : bool) : Z :=
  if has_lifeguard then 1 else 0.

Definition clampz (lo hi x : Z) : Z := Z.max lo (Z.min hi x).

Definition beach_score (du dh : Z) (has_lifeguard : bool) : Z :=
  clampz 1 10 (8 - du - dh + lifeguard_bonus has_lifeguard).

(** *** Beach packing list *)

(** The item, when its condition holds. *)
Definition when (b : bool) (item : string) : list string :=
  if b then [item] else [].

Definition packing_list (uv_high hot windy rainy : bool) : list string :=
  base_items ++ when uv_high hat_item ++ when hot fan_item
  ++ when windy windbreaker_item ++ when rainy waterproof_item.

(** *** Tides *)

(** [res] is the earliest event of type [kind] among those of [data]
    that are not before [now]; it is absent when there is none. *)
Definition earliest_from (now : Z) (kind : string) (data : list Tide)
  (res : option TideMark) : Prop :=
  match res with
  | Some m =>
      exists t, t ∈ data /\ tide_type t = kind /\ now <= tide_time t
                /\ m = mkMark (tide_time t) (tide_height t)
                /\ forall t', t' ∈ data -> tide_type t' = kind ->
                              now <= tide_time t' ->
                              tide_time t <= tide_time t'
  | None =>
      forall t, t ∈ data -> tide_type t = kind -> tide_time t < now
  end.

(** As [earliest_from], and among events of equal earliest time the
    one listed first. *)
Definition first_earliest (now : Z) (kind : string) (data : list Tide)
  (res : option TideMark) : Prop :=
  match res with
  | Some m =>
      exists pre t post,
        data = pre ++ t :: post
        /\ tide_type t = kind /\ now <= tide_time t
        /\ m = mkMark (tide_time t) (tide_height t)
        /\ (forall t', t' ∈ pre -> tide_type t' = kind ->
                       now <= tide_time t' -> tide_time t < tide_time t')
        /\ (forall t', t' ∈ post -> tide_type t' = kind ->
                       now <= tide_time t' -> tide_time t <= tide_time t')
  | None =>
      forall t, t ∈ data -> tide_type t = kind -> tide_time t < now
  end.

(** The reading of "strictly in the future": a selected event is later
    than [now]. *)
Definition strictly_future (now : Z) (res : option TideMark) : Prop :=
  match res with
  | Some m => now < mark_time m
  | None => True
  end.

(** *** Streamed text *)

(** The fragments, joined in order. *)
Fixpoint join (fragments : list string) : string :=
  match fragments with
  | [] => EmptyString
  | word :: rest => (word ++ join rest)%string
  end.

End Spec.

(** ** Sample inputs *)


(** A single high tide at instant 100. *)
Definition tide_at_100 : list Tide := [mkTide 100 "high" (HeightValue 1)].

(** A complete answer of the weather service. *)
Definition sample_response : WeatherResponse :=
  mkResponse 200 31 70 18 61 9 [10%Q; 7%Q] [29%Q; 31%Q; 27%Q; 33%Q].

(** Two tides of the same instant, and the same two in the other
    order. *)
Definition tides_tied : list Tide :=
  [mkTide 50 "low" HeightNA; mkTide 200 "high" (HeightValue 2);
   mkTide 200 "high" (HeightValue 3)].

Definition tides_tied_swapped : list Tide :=
  [mkTide 200 "high" (HeightValue 3); mkTide 200 "high" (HeightValue 2);
   mkTide 50 "low" HeightNA].

(** A geocoder that places "Quito" on the equator. *)
Definition equator_geocoder (location : string)
  : option Q * option Q * option string :=
  if String.eqb location "Quito"
  then (Some 0%Q, Some (-(785 # 10))%Q, Some "Quito")
  else (Some (198 # 10), Some (858 # 10), Some "Puri, Odisha, India").

(** A rule for the cache: an entry is served while it is younger than
    the ttl. *)
Definition younger_than_ttl (ttl stored now : Z) : bool :=
  now - stored <? ttl.


Definition facilities_cache_after_one
  : list (CacheEntry (Q * Q) (list string)) :=
  (get_beach_facilities younger_than_ttl 0 (Some "puri shore")
     (198 # 10) (858 # 10) []).2.

(** * Properties *)

(** ** Comparisons *)

Lemma lt_spec (a b : Q) : Py.lt a b = true <-> (a < b)%Q.
Proof. unfold Py.lt, Qlt. apply Z.ltb_lt. Qed.

Lemma lt_false (a b : Q) : Py.lt a b = false <-> (b <= a)%Q.
Proof. unfold Py.lt, Qle. apply Z.ltb_ge. Qed.

Lemma gt_spec (a b : Q) : Py.gt a b = true <-> (b < a)%Q.
Proof. apply lt_spec. Qed.

Lemma gt_false (a b : Q) : Py.gt a b = false <-> (a <= b)%Q.
Proof. apply lt_false. Qed.

Lemma le_spec (a b : Q) : Py.le a b = true <-> (a <= b)%Q.
Proof. apply Qle_bool_iff. Qed.

Lemma le_false (a b : Q) : Py.le a b = false <-> (b < a)%Q.
Proof.
  unfold Py.le. rewrite <- not_true_iff_false, Qle_bool_iff.
  split; [apply Qnot_le_lt | apply Qlt_not_le].
Qed.

Lemma ge_spec (a b : Q) : Py.ge a b = true <-> (b <= a)%Q.
Proof. apply le_spec. Qed.

Lemma ge_false (a b : Q) : Py.ge a b = false <-> (a < b)%Q.
Proof. apply le_false. Qed.

(** Contradictory bounds on one reading against integer constants. *)
Ltac q_order :=
  repeat match goal with
    | H : (_ <= _)%Q |- _ => unfold Qle in H; simpl in H
    | H : (_ < _)%Q |- _ => unfold Qlt in H; simpl in H
    end; lia.

(** Python rounds a tie to the even neighbour. *)
Example round1_ties :
  (Py.round1 (1 # 4) == 2 # 10)%Q /\ (Py.round1 (3 # 4) == 8 # 10)%Q
  /\ (Py.round1 (1 # 8) == 1 # 10)%Q /\ (Py.round1 (-(1 # 4)) == -(2 # 10))%Q
  /\ (Py.round1 4 == 4)%Q.
Proof. repeat split. Qed.

(** ** UV risk bands *)

(** C6: [uv_risk_level] places every reading in the band whose
    inclusive upper bound is the first of 2, 5, 7, 10 it does not
    exceed, and in Extreme above 10; 2 is Low, 2.01 is Moderate and 11
    is Extreme. *)
Theorem uv_risk_level_bands (uv : Q) :
  Spec.uv_band uv (uv_risk_level uv)
  /\ uv_risk_level 2 = "Low"
  /\ uv_risk_level (201 # 100) = "Moderate"
  /\ uv_risk_level 11 = "Extreme".
Proof.
  split; [| repeat split; reflexivity].
  unfold uv_risk_level.
  destruct (Py.le uv 2) eqn:H2.
  { apply le_spec in H2. now constructor. }
  apply le_false in H2.
  destruct (Py.le uv 5) eqn:H5.
  { apply le_spec in H5. now constructor. }
  apply le_false in H5.
  destruct (Py.le uv 7) eqn:H7.
  { apply le_spec in H7. now constructor. }
  apply le_false in H7.
  destruct (Py.le uv 10) eqn:H10.
  { apply le_spec in H10. now constructor. }
  apply le_false in H10. now constructor.
Qed.

(** The bands do not overlap: a reading has one band only. *)
Lemma uv_band_functional (uv : Q) (a b : string) :
  Spec.uv_band uv a -> Spec.uv_band uv b -> a = b.
Proof.
  intros Ha Hb.
  destruct Ha; destruct Hb; try reflexivity; exfalso; q_order.
Qed.

(** ** Weather codes *)

Lemma weather_codes_lookup (code : Z) :
  weather_codes !! code =
    if decide (code = 0) then Some "Clear sky"
    else if decide (code = 1) then Some "Mainly clear"
    else if decide (code = 2) then Some "Partly cloudy"
    else if decide (code = 3) then Some "Overcast"
    else if decide (code = 45) then Some "Fog"
    else if decide (code = 51) then Some "Light drizzle"
    else if decide (code = 61) then Some "Light rain"
    else if decide (code = 80) then Some "Rain showers"
    else if decide (code = 95) then Some "Thunderstorm"
    else None.
Proof.
  unfold weather_codes.
  repeat (case_decide; [subst; reflexivity |]).
  repeat (rewrite fin_maps.lookup_insert_ne by congruence).
  apply lookup_empty.
Qed.

Lemma known_codes_spec (code : Z) :
  code ∈ Spec.known_codes <->
  code = 0 \/ code = 1 \/ code = 2 \/ code = 3 \/ code = 45 \/ code = 51
  \/ code = 61 \/ code = 80 \/ code = 95.
Proof.
  unfold Spec.known_codes.
  rewrite !elem_of_union, !elem_of_singleton. tauto.
Qed.

(** C8: the table has exactly the nine codes 0, 1, 2, 3, 45, 51, 61,
    80 and 95, each with its text (95 is "Thunderstorm"), and a code
    gets the text "Unknown weather conditions" exactly when it is none
    of them (999 for one). *)
Theorem translate_weather_code_table (code : Z) :
  dom weather_codes = Spec.known_codes
  /\ translate_weather_code 0 = "Clear sky"
  /\ translate_weather_code 1 = "Mainly clear"
  /\ translate_weather_code 2 = "Partly cloudy"
  /\ translate_weather_code 3 = "Overcast"
  /\ translate_weather_code 45 = "Fog"
  /\ translate_weather_code 51 = "Light drizzle"
  /\ translate_weather_code 61 = "Light rain"
  /\ translate_weather_code 80 = "Rain showers"
  /\ translate_weather_code 95 = "Thunderstorm"
  /\ translate_weather_code 999 = "Unknown weather conditions"
  /\ (translate_weather_code code = "Unknown weather conditions"
      <-> code ∉ Spec.known_codes).
Proof.
  split.
  { unfold weather_codes, Spec.known_codes.
    rewrite !dom_insert_L, dom_empty_L.
    apply set_eq. intros x.
    rewrite !elem_of_union, !elem_of_singleton, elem_of_empty. tauto. }
  do 10 (split; [reflexivity |]).
  unfold translate_weather_code.
  rewrite weather_codes_lookup, known_codes_spec.
  repeat (case_decide;
          [subst; split; [discriminate | intros Hn; exfalso; apply Hn; tauto] |]).
  split; [intros _ Hn; intuition congruence | reflexivity].
Qed.

(** ** Text *)

Lemma prefix_spec (p s : string) :
  String.prefix p s = true <-> exists post, s = (p ++ post)%string.
Proof.
  revert s. induction p as [| c p IH]; intros s; simpl.
  - destruct s; split; eauto.
  - destruct s as [| d s].
    + split; [discriminate | intros [post H]; discriminate].
    + simpl. destruct (Ascii.ascii_dec c d) as [-> | Hne].
      * rewrite IH. split; intros [post H]; exists post.
        -- now rewrite H.
        -- now inversion H.
      * split; [discriminate | intros [post H]; inversion H; congruence].
Qed.

Lemma str_in_unfold (needle s : string) :
  Py.str_in needle s =
    if String.prefix needle s then true
    else match s with
         | EmptyString => false
         | String _ s' => Py.str_in needle s'
         end.
Proof. destruct s; reflexivity. Qed.

Lemma str_in_spec (needle s : string) :
  Py.str_in needle s = true <-> Spec.occurs needle s.
Proof.
  unfold Spec.occurs. split.
  - induction s as [| c s IH]; rewrite str_in_unfold;
      destruct (String.prefix needle _) eqn:Hp.
    + intros _. apply prefix_spec in Hp as [post Hp].
      now exists EmptyString, post.
    + discriminate.
    + intros _. apply prefix_spec in Hp as [post Hp].
      now exists EmptyString, post.
    + intros H. destruct (IH H) as (pre & post & ->).
      now exists (String c pre), post.
  - intros (pre & post & ->).
    induction pre as [| c pre IH]; rewrite str_in_unfold.
    + assert (Hp : String.prefix needle (needle ++ post) = true)
        by (apply prefix_spec; eauto).
      change (EmptyString ++ needle ++ post)%string with (needle ++ post)%string.
      now rewrite Hp.
    + destruct (String.prefix needle _); [reflexivity | exact IH].
Qed.

Lemma str_in_false (needle s : string) :
  Py.str_in needle s = false <-> ~ Spec.occurs needle s.
Proof. rewrite <- str_in_spec. symmetry. apply not_true_iff_false. Qed.

Lemma str_in_lower_spec (needle s : string) :
  Py.str_in needle (Py.lower s) = true <-> Spec.occurs_nocase needle s.
Proof. apply str_in_spec. Qed.

Lemma any_spec {A} (p : A -> bool) (l : list A) :
  Py.any p l = true <-> Exists (fun x => p x = true) l.
Proof.
  unfold Py.any. induction l as [| x l IH]; simpl.
  - split; [discriminate | intros H; inversion H].
  - rewrite orb_true_iff, IH, Exists_cons. tauto.
Qed.

Lemma any_lower_spec (word : string) (hazards : list string) :
  Py.any (fun h => Py.str_in word (Py.lower h)) hazards = true
  <-> Spec.mentions word hazards.
Proof.
  rewrite any_spec. unfold Spec.mentions.
  split; intros H; (eapply Exists_impl; [exact H |]);
    intros h; apply str_in_lower_spec.
Qed.

(** The substring test tells letter case apart; [lower] removes the
    difference. *)
Example str_in_samples :
  Py.str_in "Rain" "Rain showers" = true
  /\ Py.str_in "Rain" "Light rain" = false
  /\ Py.str_in "rain" (Py.lower "Light Rain") = true
  /\ Py.lower "TSUNAMI Alert 7" = "tsunami alert 7".
Proof. repeat split. Qed.

(** Lower case outside ASCII: the dotted capital I gives an i, the
    Kelvin sign a k, and the number of characters is not the number of
    bytes. *)
Example lower_outside_ascii :
  Py.str_in "tsunami" (Py.lower "TSUNAMİ") = true
  /\ Py.str_in "puri" (Py.lower "PURİ Coast") = true
  /\ Py.lower "K2" = "k2"
  /\ Py.len "Côte" = 4%nat
  /\ Py.len "Puri" = 4%nat.
Proof. repeat split. Qed.

(** ** General safety rating *)

(** Turn the outcome of each test of the program into the statement it
    decides. *)
Ltac reflect_tests :=
  repeat match goal with
    | H : Py.str_in _ (Py.lower _) = true |- _ => apply str_in_lower_spec in H
    | H : Py.str_in _ _ = true |- _ => apply str_in_spec in H
    | H : Py.str_in _ _ = false |- _ => apply str_in_false in H
    | H : Py.gt _ _ = true |- _ => apply gt_spec in H
    | H : Py.gt _ _ = false |- _ => apply gt_false in H
    | H : Py.lt _ _ = true |- _ => apply lt_spec in H
    | H : Py.lt _ _ = false |- _ => apply lt_false in H
    | H : Py.le _ _ = true |- _ => apply le_spec in H
    | H : Py.le _ _ = false |- _ => apply le_false in H
    | H : Py.ge _ _ = true |- _ => apply ge_spec in H
    | H : Py.ge _ _ = false |- _ => apply ge_false in H
    end.

(** Case analysis on every [if] of the goal, outermost first. *)
Ltac branch_all :=
  repeat match goal with
    | |- context [if ?b then _ else _] => destruct b eqn:?
    end.

Ltac by_rule := solve [econstructor; eassumption].

Lemma rating_before_bounds_rules (w : Weather) :
  exists dc dt dw du : Q,
    Spec.condition_rule (conditions w) dc
    /\ Spec.temperature_rule (temp w) dt
    /\ Spec.wind_rule (wind w) dw
    /\ Spec.uv_rule (uv_index w) du
    /\ rating_before_bounds w = Spec.raw_score dc dt dw du.
Proof.
  unfold rating_before_bounds. branch_all; reflect_tests;
    do 4 eexists;
    (split; [by_rule |]); (split; [by_rule |]);
    (split; [by_rule |]); (split; [by_rule |]); reflexivity.
Qed.

(** C1: before clamping and rounding, the rating is 8.0 minus one
    deduction per category: the condition text gives 4, 2 or 1 for the
    first of Thunderstorm, Rain, Fog occurring in it (case-sensitive),
    the temperature 2 above 35 else 1 below 10, the wind 3 above 30
    else 1 above 20, the UV index 1 above 8; the four are summed, and
    the returned rating is that value bounded and rounded. *)
Theorem safety_rating_deductions (w : Weather) :
  exists dc dt dw du : Q,
    Spec.condition_rule (conditions w) dc
    /\ Spec.temperature_rule (temp w) dt
    /\ Spec.wind_rule (wind w) dw
    /\ Spec.uv_rule (uv_index w) du
    /\ rating_before_bounds w = Spec.raw_score dc dt dw du
    /\ get_safety_rating w =
         Py.max 0 (Py.min 10 (Py.round1 (Spec.raw_score dc dt dw du))).
Proof.
  destruct (rating_before_bounds_rules w)
    as (dc & dt & dw & du & Hc & Ht & Hw & Hu & Hr).
  exists dc, dt, dw, du. unfold get_safety_rating. rewrite Hr. tauto.
Qed.

(** Each category yields one deduction only. *)
Lemma occurs_dec (needle s : string) :
  {Spec.occurs needle s} + {~ Spec.occurs needle s}.
Proof.
  destruct (Py.str_in needle s) eqn:H;
    [left; now apply str_in_spec | right; now apply str_in_false].
Qed.

Lemma condition_rule_functional (text : string) (a b : Q) :
  Spec.condition_rule text a -> Spec.condition_rule text b -> a = b.
Proof. intros Ha Hb. destruct Ha; destruct Hb; tauto. Qed.

Lemma temperature_rule_functional (t a b : Q) :
  Spec.temperature_rule t a -> Spec.temperature_rule t b -> a = b.
Proof.
  intros Ha Hb. destruct Ha; destruct Hb; try reflexivity; exfalso; q_order.
Qed.

Lemma wind_rule_functional (v a b : Q) :
  Spec.wind_rule v a -> Spec.wind_rule v b -> a = b.
Proof.
  intros Ha Hb. destruct Ha; destruct Hb; try reflexivity; exfalso; q_order.
Qed.

Lemma uv_rule_functional (u a b : Q) :
  Spec.uv_rule u a -> Spec.uv_rule u b -> a = b.
Proof.
  intros Ha Hb. destruct Ha; destruct Hb; try reflexivity; exfalso; q_order.
Qed.

(** The value before bounds is a whole number from -2 to 8. *)
Lemma rating_before_bounds_whole (w : Weather) :
  exists n : Z, -2 <= n <= 8 /\ rating_before_bounds w = inject_Z n.
Proof.
  unfold rating_before_bounds.
  branch_all; eexists; (split; [| cbv; reflexivity]); lia.
Qed.

Lemma bounds_on_whole (n : Z) :
  -2 <= n <= 8 ->
  let r := Py.max 0 (Py.min 10 (Py.round1 (inject_Z n))) in
  (0 <= r)%Q /\ (r <= 10)%Q
  /\ (r == Py.round1 (Spec.clamp 0 10 (inject_Z n)))%Q
  /\ (r == Z.max 0 n # 1)%Q.
Proof.
  intros Hn.
  assert (Hcases : n = -2 \/ n = -1 \/ n = 0 \/ n = 1 \/ n = 2 \/ n = 3
                   \/ n = 4 \/ n = 5 \/ n = 6 \/ n = 7 \/ n = 8) by lia.
  repeat (destruct Hcases as [-> | Hcases]); try subst n;
    (split; [apply Qle_bool_iff; reflexivity |]);
    (split; [apply Qle_bool_iff; reflexivity |]);
    split; apply Qeq_bool_iff; reflexivity.
Qed.

(** C2: the rating lies in [0, 10], equals the value before bounds
    clamped to [0, 10] and rounded to one decimal place, and is a whole
    number of tenths. *)
Theorem safety_rating_bounds (w : Weather) :
  (0 <= get_safety_rating w)%Q /\ (get_safety_rating w <= 10)%Q
  /\ (get_safety_rating w ==
        Py.round1 (Spec.clamp 0 10 (rating_before_bounds w)))%Q
  /\ exists k : Z, (get_safety_rating w == k # 10)%Q.
Proof.
  destruct (rating_before_bounds_whole w) as (n & Hn & Hw).
  unfold get_safety_rating. rewrite Hw.
  destruct (bounds_on_whole n Hn) as (H0 & H10 & Hc & Hv).
  repeat split; try assumption.
  exists (10 * Z.max 0 n). rewrite Hv.
  unfold Qeq. simpl. lia.
Qed.

(** C3: the label follows from the rating by inclusive lower bounds 8,
    6 and 4; a thunderstorm at 20 degrees, wind 5, UV 3 rates 4.0,
    Caution Advised, and clear weather with the same readings rates
    8.0, Very Safe. *)
Theorem safety_label_thresholds (score h um fmax fmin : Q) :
  let storm := mkWeather 20 h 5 3 um "Thunderstorm" fmax fmin in
  let clear := mkWeather 20 h 5 3 um "Clear" fmax fmin in
  Spec.label_rule score (safety_label score)
  /\ (get_safety_rating storm == 4)%Q
  /\ safety_label (get_safety_rating storm) = "Caution Advised"
  /\ (get_safety_rating clear == 8)%Q
  /\ safety_label (get_safety_rating clear) = "Very Safe".
Proof.
  split; [| repeat split; reflexivity].
  unfold safety_label. branch_all; reflect_tests; by_rule.
Qed.

(** Only the first matching condition rule applies, and the lower bound
    0 is met when every category deducts its most. *)
Example safety_rating_samples (h um fmax fmin : Q) :
  rating_before_bounds
    (mkWeather 20 h 5 3 um "Thunderstorm, Rain and Fog" fmax fmin) = 4%Q
  /\ rating_before_bounds
       (mkWeather 40 h 35 9 um "Thunderstorm" fmax fmin) = (-2)%Q
  /\ (get_safety_rating
        (mkWeather 40 h 35 9 um "Thunderstorm" fmax fmin) == 0)%Q
  /\ (get_safety_rating (mkWeather 28 65 12 (65 # 10) (82 # 10) "Sunny" 32 26)
      == 8)%Q.
Proof. repeat split. Qed.

Lemma label_rule_functional (score : Q) (a b : string) :
  Spec.label_rule score a -> Spec.label_rule score b -> a = b.
Proof.
  intros Ha Hb. destruct Ha; destruct Hb; try reflexivity; exfalso; q_order.
Qed.

(** ** Beach score *)

Ltac reflect_hazards :=
  repeat match goal with
    | H : Py.any _ _ = true |- _ => apply any_lower_spec in H
    | H : Py.any _ _ = false |- _ =>
        apply not_true_iff_false in H; rewrite any_lower_spec in H
    end.

Lemma score_before_bounds_rules
  (uv : Q) (hazards : list string) (has_lifeguard : bool) :
  exists du dh : Z,
    Spec.beach_uv_rule uv du
    /\ Spec.hazard_rule hazards dh
    /\ score_before_bounds uv hazards has_lifeguard =
         8 - du - dh + Spec.lifeguard_bonus has_lifeguard.
Proof.
  unfold score_before_bounds, Spec.lifeguard_bonus.
  destruct has_lifeguard; branch_all; reflect_tests; reflect_hazards;
    do 2 eexists; (split; [by_rule |]); (split; [by_rule |]); reflexivity.
Qed.

Lemma maxz_spec (a b : Z) : Py.maxz a b = Z.max a b.
Proof. unfold Py.maxz. destruct (Z.ltb_spec a b); lia. Qed.

Lemma minz_spec (a b : Z) : Py.minz a b = Z.min a b.
Proof. unfold Py.minz. destruct (Z.ltb_spec b a); lia. Qed.

(** C4: the beach score is 8, less 2 for a UV index above 8 or else 1
    above 5, less 3 when some hazard mentions tsunami or else 2 when
    some mentions cyclone (letter case ignored), plus 1 with a
    lifeguard, then clamped to [1, 10]; a UV index of 9 with a tsunami
    warning and no lifeguard scores 3. *)
Theorem beach_safety_score_formula
  (uv : Q) (hazards : list string) (has_lifeguard : bool) :
  (exists du dh : Z,
     Spec.beach_uv_rule uv du
     /\ Spec.hazard_rule hazards dh
     /\ get_beach_safety_score uv hazards has_lifeguard =
          Spec.beach_score du dh has_lifeguard)
  /\ get_beach_safety_score 9 ["Tsunami warning"] false = 3
  /\ get_beach_safety_score 2 [] true = 9.
Proof.
  split; [| split; reflexivity].
  destruct (score_before_bounds_rules uv hazards has_lifeguard)
    as (du & dh & Hu & Hh & Hs).
  exists du, dh. repeat split; try assumption.
  unfold get_beach_safety_score, Spec.beach_score, Spec.clampz.
  now rewrite Hs, maxz_spec, minz_spec.
Qed.

Lemma beach_uv_rule_functional (uv : Q) (a b : Z) :
  Spec.beach_uv_rule uv a -> Spec.beach_uv_rule uv b -> a = b.
Proof.
  intros Ha Hb. destruct Ha; destruct Hb; try reflexivity; exfalso; q_order.
Qed.

Lemma hazard_rule_functional (hazards : list string) (a b : Z) :
  Spec.hazard_rule hazards a -> Spec.hazard_rule hazards b -> a = b.
Proof. intros Ha Hb. destruct Ha; destruct Hb; tauto. Qed.

(** C10: the beach score always lies in [3, 9], and the clamp to
    [1, 10] never changes the value it is applied to. *)
Theorem beach_safety_score_range
  (uv : Q) (hazards : list string) (has_lifeguard : bool) :
  3 <= get_beach_safety_score uv hazards has_lifeguard <= 9
  /\ get_beach_safety_score uv hazards has_lifeguard =
       score_before_bounds uv hazards has_lifeguard.
Proof.
  unfold get_beach_safety_score. rewrite maxz_spec, minz_spec.
  destruct (score_before_bounds_rules uv hazards has_lifeguard)
    as (du & dh & Hu & Hh & ->).
  destruct Hu; destruct Hh; destruct has_lifeguard; simpl; lia.
Qed.

(** Both ends of the range are met. *)
Lemma beach_score_extremes_met :
  get_beach_safety_score 9 ["TSUNAMI alert"] false = 3
  /\ get_beach_safety_score 0 [] true = 9.
Proof. split; reflexivity. Qed.

(** ** Beach packing list *)

Lemma length_when (b : bool) (item : string) :
  (length (Spec.when b item) <= 1)%nat.
Proof. destruct b; simpl; lia. Qed.

(** C7: the packing list is the five base items in their order,
    followed by the hat item when the UV index is above 8, the cooling
    item when the temperature is above 30, the windbreaker when the
    wind is above 15 and the waterproof cover when the condition text
    contains rain in any letter case, each decided on its own and kept
    in that order; it has between 5 and 9 items, all nine for 31
    degrees, wind 20, UV 9 and light rain. *)
Theorem beach_packing_list_shape (w : Weather) (uv h um fmax fmin : Q) :
  (exists uv_high hot windy rainy : bool,
     (uv_high = true <-> (8 < uv)%Q)
     /\ (hot = true <-> (30 < temp w)%Q)
     /\ (windy = true <-> (15 < wind w)%Q)
     /\ (rainy = true <-> Spec.occurs_nocase "rain" (conditions w))
     /\ generate_beach_packing_list w uv =
          Spec.packing_list uv_high hot windy rainy)
  /\ length base_items = 5%nat
  /\ (5 <= length (generate_beach_packing_list w uv) <= 9)%nat
  /\ generate_beach_packing_list
       (mkWeather 31 h 20 9 um "Light rain" fmax fmin) 9 =
     base_items
     ++ [hat_item; fan_item; windbreaker_item; waterproof_item].
Proof.
  assert (Hshape :
    generate_beach_packing_list w uv =
      Spec.packing_list (Py.gt uv 8) (Py.gt (temp w) 30)
        (Py.gt (wind w) 15)
        (Py.str_in "rain" (Py.lower (conditions w)))).
  { unfold generate_beach_packing_list, Spec.packing_list, append.
    destruct (Py.gt uv 8), (Py.gt (temp w) 30), (Py.gt (wind w) 15),
      (Py.str_in "rain" (Py.lower (conditions w))); reflexivity. }
  split; [| split; [reflexivity | split; [| reflexivity]]].
  - exists (Py.gt uv 8), (Py.gt (temp w) 30), (Py.gt (wind w) 15),
      (Py.str_in "rain" (Py.lower (conditions w))).
    split; [apply gt_spec |]. split; [apply gt_spec |].
    split; [apply gt_spec |]. split; [apply str_in_lower_spec | exact Hshape].
  - rewrite Hshape. unfold Spec.packing_list.
    rewrite !length_app.
    pose proof (length_when (Py.gt uv 8) hat_item).
    pose proof (length_when (Py.gt (temp w) 30) fan_item).
    pose proof (length_when (Py.gt (wind w) 15) windbreaker_item).
    pose proof (length_when
      (Py.str_in "rain" (Py.lower (conditions w))) waterproof_item).
    change (length base_items) with 5%nat. lia.
Qed.

(** ** Distance fallback *)

Section DistanceFacts.

Variable get_coordinates : string -> option Q * option Q * option string.
Variable great_circle_km : Q * Q -> Q * Q -> Q.


(** With both places resolved the distance is the great-circle one. *)
Lemma estimate_flight_distance_resolved
  (origin destination : string) (a b c d : Q) (oaddr daddr : option string) :
  get_coordinates origin = (Some a, Some b, oaddr) ->
  get_coordinates destination = (Some c, Some d, daddr) ->
  estimate_flight_distance get_coordinates great_circle_km
    origin destination = great_circle_km (a, b) (c, d).
Proof.
  intros Ho Hd. unfold estimate_flight_distance. now rewrite Ho, Hd.
Qed.

End DistanceFacts.


(** ** Tide selection *)

Lemma select_tides_snoc (now : Z) (data : list Tide) (x : Tide) :
  select_tides now (data ++ [x]) = tide_step now (select_tides now data) x.
Proof. unfold select_tides. now rewrite fold_left_app. Qed.

(** An event that is of another type, too early, or not earlier than
    the current choice leaves the choice as it is. *)
Lemma earliest_keep (now : Z) (kind : string) (data : list Tide) (x : Tide)
  (res : option TideMark) :
  Spec.earliest_from now kind data res ->
  tide_type x <> kind \/ tide_time x < now
  \/ improves (tide_time x) res = false ->
  Spec.earliest_from now kind (data ++ [x]) res.
Proof.
  intros Hres Hx. destruct res as [m |]; simpl in *.
  - destruct Hres as (t & Hin & Hk & Hnow & -> & Hmin).
    exists t. repeat split; try assumption.
    + apply elem_of_app. now left.
    + intros t' Hin' Hk' Hnow'.
      apply elem_of_app in Hin' as [Hin' | Hin']; [now apply Hmin |].
      apply list_elem_of_singleton in Hin' as ->.
      destruct Hx as [Hx | [Hx | Hx]]; [contradiction | lia |].
      simpl in Hx. lia.
  - intros t Hin Hk.
    apply elem_of_app in Hin as [Hin | Hin]; [now apply Hres |].
    apply list_elem_of_singleton in Hin as ->.
    destruct Hx as [Hx | [Hx | Hx]]; [contradiction | lia | discriminate].
Qed.

(** An event of the right type, not before [now], that improves on the
    current choice becomes the choice. *)
Lemma earliest_take (now : Z) (kind : string) (data : list Tide) (x : Tide)
  (res : option TideMark) :
  Spec.earliest_from now kind data res ->
  tide_type x = kind -> now <= tide_time x ->
  improves (tide_time x) res = true ->
  Spec.earliest_from now kind (data ++ [x])
    (Some (mkMark (tide_time x) (tide_height x))).
Proof.
  intros Hres Hk Hnow Himp. simpl.
  exists x. repeat split; try assumption.
  - apply elem_of_app. right. now apply list_elem_of_singleton.
  - intros t' Hin' Hk' Hnow'.
    apply elem_of_app in Hin' as [Hin' | Hin'].
    + destruct res as [m |]; simpl in *.
      * destruct Hres as (t & _ & _ & _ & -> & Hmin).
        simpl in Himp. specialize (Hmin t' Hin' Hk' Hnow'). lia.
      * specialize (Hres t' Hin' Hk'). lia.
    + apply list_elem_of_singleton in Hin' as ->. lia.
Qed.

Lemma tide_step_high (now : Z) (data : list Tide) (st : TideState) (x : Tide) :
  Spec.earliest_from now "high" data (next_high st) ->
  Spec.earliest_from now "high" (data ++ [x]) (next_high (tide_step now st x)).
Proof.
  intros H. unfold tide_step.
  destruct (Z.ltb_spec (tide_time x) now) as [Hpast | Hfut].
  { apply earliest_keep; auto. }
  destruct (String.eqb_spec (tide_type x) "high") as [Hh | Hh].
  - destruct (improves (tide_time x) (next_high st)) eqn:Himp;
      cbn [next_high].
    + now apply (earliest_take now "high" data x (next_high st)).
    + apply earliest_keep; auto.
  - destruct (String.eqb (tide_type x) "low");
      [destruct (improves (tide_time x) (next_low st)) |];
      cbn [next_high]; apply earliest_keep; auto.
Qed.

Lemma tide_step_low (now : Z) (data : list Tide) (st : TideState) (x : Tide) :
  Spec.earliest_from now "low" data (next_low st) ->
  Spec.earliest_from now "low" (data ++ [x]) (next_low (tide_step now st x)).
Proof.
  intros H. unfold tide_step.
  destruct (Z.ltb_spec (tide_time x) now) as [Hpast | Hfut].
  { apply earliest_keep; auto. }
  destruct (String.eqb_spec (tide_type x) "high") as [Hh | Hh].
  - assert (Hl : tide_type x <> "low") by (rewrite Hh; discriminate).
    destruct (improves (tide_time x) (next_high st)); cbn [next_low];
      apply earliest_keep; auto.
  - destruct (String.eqb_spec (tide_type x) "low") as [Hl | Hl].
    + destruct (improves (tide_time x) (next_low st)) eqn:Himp;
        cbn [next_low].
      * now apply (earliest_take now "low" data x (next_low st)).
      * apply earliest_keep; auto.
    + apply earliest_keep; auto.
Qed.

(** The loop invariant, at the end of the loop. *)
Lemma select_tides_earliest (now : Z) (data : list Tide) :
  Spec.earliest_from now "high" data (next_high (select_tides now data))
  /\ Spec.earliest_from now "low" data (next_low (select_tides now data)).
Proof.
  induction data as [| x data [IHh IHl]] using rev_ind.
  - split; intros t Hin; now apply elem_of_nil in Hin.
  - rewrite select_tides_snoc. split.
    + now apply tide_step_high.
    + now apply tide_step_low.
Qed.

(** Events before [now] play no part. *)
Lemma fold_skips_past (now : Z) (data : list Tide) (st : TideState) :
  fold_left (tide_step now) (filter (fun t => now <= tide_time t) data) st
  = fold_left (tide_step now) data st.
Proof.
  revert st. induction data as [| x data IH]; intros st; [reflexivity |].
  destruct (Z.ltb_spec (tide_time x) now) as [Hpast | Hfut].
  - rewrite filter_cons_False by lia. simpl. rewrite IH.
    f_equal. unfold tide_step.
    now destruct (Z.ltb_spec (tide_time x) now); [| lia].
  - rewrite filter_cons_True by lia. simpl. apply IH.
Qed.

(** The high choice after a step depends on the high choice before it
    only, and steps of other types do not touch it; likewise for low. *)
Lemma tide_step_high_only (now : Z) (st st' : TideState) (x : Tide) :
  next_high st = next_high st' ->
  next_high (tide_step now st x) = next_high (tide_step now st' x).
Proof.
  intros H. unfold tide_step.
  destruct (tide_time x <? now); [assumption |].
  destruct (String.eqb (tide_type x) "high").
  - rewrite H. now destruct (improves _ (next_high st')).
  - destruct (String.eqb (tide_type x) "low"); [| assumption].
    now destruct (improves _ (next_low st)), (improves _ (next_low st')).
Qed.

Lemma tide_step_not_high (now : Z) (st : TideState) (x : Tide) :
  tide_type x <> "high" -> next_high (tide_step now st x) = next_high st.
Proof.
  intros H. unfold tide_step.
  destruct (tide_time x <? now); [reflexivity |].
  destruct (String.eqb_spec (tide_type x) "high"); [contradiction |].
  destruct (String.eqb (tide_type x) "low"); [| reflexivity].
  now destruct (improves _ (next_low st)).
Qed.

Lemma tide_step_low_only (now : Z) (st st' : TideState) (x : Tide) :
  next_low st = next_low st' ->
  next_low (tide_step now st x) = next_low (tide_step now st' x).
Proof.
  intros H. unfold tide_step.
  destruct (tide_time x <? now); [assumption |].
  destruct (String.eqb (tide_type x) "high").
  - now destruct (improves _ (next_high st)), (improves _ (next_high st')).
  - destruct (String.eqb (tide_type x) "low"); [| assumption].
    rewrite H. now destruct (improves _ (next_low st')).
Qed.

Lemma tide_step_not_low (now : Z) (st : TideState) (x : Tide) :
  tide_type x <> "low" -> next_low (tide_step now st x) = next_low st.
Proof.
  intros H. unfold tide_step.
  destruct (tide_time x <? now); [reflexivity |].
  destruct (String.eqb (tide_type x) "high").
  - now destruct (improves _ (next_high st)).
  - now destruct (String.eqb_spec (tide_type x) "low").
Qed.

Lemma fold_high_only (now : Z) (data : list Tide) (st st' : TideState) :
  next_high st = next_high st' ->
  next_high (fold_left (tide_step now)
               (filter (fun t => tide_type t = "high") data) st')
  = next_high (fold_left (tide_step now) data st).
Proof.
  revert st st'. induction data as [| x data IH]; intros st st' H.
  - now symmetry.
  - destruct (decide (tide_type x = "high")) as [Hh | Hh].
    + rewrite filter_cons_True by assumption. simpl.
      apply IH. now apply tide_step_high_only.
    + rewrite filter_cons_False by assumption. simpl.
      apply IH. now rewrite tide_step_not_high.
Qed.

Lemma fold_low_only (now : Z) (data : list Tide) (st st' : TideState) :
  next_low st = next_low st' ->
  next_low (fold_left (tide_step now)
              (filter (fun t => tide_type t = "low") data) st')
  = next_low (fold_left (tide_step now) data st).
Proof.
  revert st st'. induction data as [| x data IH]; intros st st' H.
  - now symmetry.
  - destruct (decide (tide_type x = "low")) as [Hl | Hl].
    + rewrite filter_cons_True by assumption. simpl.
      apply IH. now apply tide_step_low_only.
    + rewrite filter_cons_False by assumption. simpl.
      apply IH. now rewrite tide_step_not_low.
Qed.

(** C5, as the code has it: the result holds at most one next high and
    one next low; each is the earliest event of its type among those
    not before the query time (an event at the query time itself
    counts), events before the query time play no part, and the two
    are chosen independently of each other. *)
Theorem tide_selection_earliest (now : Z) (data : list Tide) :
  match get_tide_data now data with
  | TideError _ => data = []
  | TideOk st =>
      st = select_tides now data
      /\ Spec.earliest_from now "high" data (next_high st)
      /\ Spec.earliest_from now "low" data (next_low st)
      /\ select_tides now (filter (fun t => now <= tide_time t) data) = st
      /\ next_high (select_tides now
                      (filter (fun t => tide_type t = "high") data))
         = next_high st
      /\ next_low (select_tides now
                     (filter (fun t => tide_type t = "low") data))
         = next_low st
  end.
Proof.
  unfold get_tide_data. destruct data as [| x data]; [reflexivity |].
  set (l := x :: data).
  destruct (select_tides_earliest now l) as [Hh Hl].
  repeat split; try assumption.
  - apply fold_skips_past.
  - now apply fold_high_only.
  - now apply fold_low_only.
Qed.

(** A high tide at the very instant of the query is selected: the
    selected event is not later than the query time, and dropping the
    events that are not later changes the result. *)
Lemma tide_at_query_time_selected :
  get_tide_data 100 tide_at_100
    = TideOk (mkState (Some (mkMark 100 (HeightValue 1))) None)
  /\ ~ Spec.strictly_future 100 (next_high (select_tides 100 tide_at_100))
  /\ select_tides 100 (filter (fun t => 100 < tide_time t) tide_at_100)
     <> select_tides 100 tide_at_100.
Proof.
  split; [reflexivity |]. split.
  - simpl. lia.
  - discriminate.
Qed.

(** * Further properties of the code *)

(** ** Rating and label together *)

(** Case analysis on the tests of the rating, leaving every other
    conditional of the goal alone. *)
Ltac branch_tests :=
  repeat match goal with
    | |- context [if Py.str_in ?a ?b then _ else _] =>
        destruct (Py.str_in a b) eqn:?
    | |- context [if Py.gt ?a ?b then _ else _] =>
        destruct (Py.gt a b) eqn:?
    | |- context [if Py.lt ?a ?b then _ else _] =>
        destruct (Py.lt a b) eqn:?
    end.

(** X1: the rating is a whole number from 0 to 8: the upper bound 10 of
    the clamp is never reached, since nothing is ever added to 8.0. *)
Theorem safety_rating_whole_0_to_8 (w : Weather) :
  exists n : Z, 0 <= n <= 8 /\ (get_safety_rating w == inject_Z n)%Q.
Proof.
  destruct (rating_before_bounds_whole w) as (n & Hn & Hw).
  destruct (bounds_on_whole n Hn) as (_ & _ & _ & Hv).
  exists (Z.max 0 n). split; [lia |].
  unfold get_safety_rating. rewrite Hw. exact Hv.
Qed.

(** X2: the label is Very Safe exactly when no deduction applies: none
    of the three condition words, a temperature from 10 to 35, wind up
    to 20 and a UV index up to 8. *)
Theorem very_safe_iff_no_deduction (w : Weather) :
  safety_label (get_safety_rating w) = "Very Safe"
  <-> ~ Spec.occurs "Thunderstorm" (conditions w)
      /\ ~ Spec.occurs "Rain" (conditions w)
      /\ ~ Spec.occurs "Fog" (conditions w)
      /\ (10 <= temp w)%Q /\ (temp w <= 35)%Q
      /\ (wind w <= 20)%Q /\ (uv_index w <= 8)%Q.
Proof.
  unfold get_safety_rating, rating_before_bounds.
  branch_tests; reflect_tests;
    (split;
     [ intros H; first [ vm_compute in H; discriminate H | tauto ]
     | intros (A & B & C & D & E & F & G);
       first [ reflexivity | tauto | exfalso; q_order ] ]).
Qed.

(** X3: the label is a function of the sum of the four deductions:
    Very Safe for 0, Safe for 1 or 2, Caution Advised for 3 or 4, Not
    Recommended from 5 on. *)
Theorem safety_label_by_deductions (w : Weather) :
  exists dc dt dw du : Q,
    Spec.condition_rule (conditions w) dc
    /\ Spec.temperature_rule (temp w) dt
    /\ Spec.wind_rule (wind w) dw
    /\ Spec.uv_rule (uv_index w) du
    /\ safety_label (get_safety_rating w)
       = Spec.label_of_total (dc + dt + dw + du).
Proof.
  unfold get_safety_rating, rating_before_bounds.
  branch_tests; reflect_tests;
    do 4 eexists;
    (split; [by_rule |]); (split; [by_rule |]);
    (split; [by_rule |]); (split; [by_rule |]); reflexivity.
Qed.

Lemma gt_mono (a b c : Q) :
  (a <= b)%Q -> Py.gt a c = true -> Py.gt b c = true.
Proof.
  intros Hab H. apply gt_spec in H. apply gt_spec.
  eapply Qlt_le_trans; eassumption.
Qed.

(** X4: with the other readings unchanged, a stronger wind never gives
    a higher rating. *)
Theorem safety_rating_wind_monotone
  (t h v1 v2 u um : Q) (c : string) (fmax fmin : Q) :
  (v1 <= v2)%Q ->
  (get_safety_rating (mkWeather t h v2 u um c fmax fmin)
   <= get_safety_rating (mkWeather t h v1 u um c fmax fmin))%Q.
Proof.
  intros Hv.
  pose proof (gt_mono v1 v2 30 Hv) as H30.
  pose proof (gt_mono v1 v2 20 Hv) as H20.
  unfold get_safety_rating, rating_before_bounds. cbn [wind temp conditions uv_index].
  destruct (Py.gt v1 30), (Py.gt v1 20);
    try rewrite (H30 eq_refl); try rewrite (H20 eq_refl);
    branch_tests; apply Qle_bool_iff; reflexivity.
Qed.

Lemma safety_rating_wind_monotone_witness :
  (10 <= 25)%Q
  /\ (get_safety_rating (mkWeather 20 50 25 3 5 "Fog" 22 18)
      <= get_safety_rating (mkWeather 20 50 10 3 5 "Fog" 22 18))%Q.
Proof.
  assert (H : (10 <= 25)%Q) by (apply Qle_bool_iff; reflexivity).
  split; [exact H |].
  exact (safety_rating_wind_monotone 20 50 10 25 3 5 "Fog" 22 18 H).
Defined.

(** X5: with the other readings unchanged, a higher UV index never
    gives a higher rating. *)
Theorem safety_rating_uv_monotone
  (t h v u1 u2 um : Q) (c : string) (fmax fmin : Q) :
  (u1 <= u2)%Q ->
  (get_safety_rating (mkWeather t h v u2 um c fmax fmin)
   <= get_safety_rating (mkWeather t h v u1 um c fmax fmin))%Q.
Proof.
  intros Hu.
  pose proof (gt_mono u1 u2 8 Hu) as H8.
  unfold get_safety_rating, rating_before_bounds. cbn [wind temp conditions uv_index].
  destruct (Py.gt u1 8); try rewrite (H8 eq_refl);
    branch_tests; apply Qle_bool_iff; reflexivity.
Qed.

Lemma safety_rating_uv_monotone_witness :
  (3 <= 9)%Q
  /\ (get_safety_rating (mkWeather 20 50 10 9 9 "Clear sky" 22 18)
      <= get_safety_rating (mkWeather 20 50 10 3 9 "Clear sky" 22 18))%Q.
Proof.
  assert (H : (3 <= 9)%Q) by (apply Qle_bool_iff; reflexivity).
  split; [exact H |].
  exact (safety_rating_uv_monotone 20 50 10 3 9 9 "Clear sky" 22 18 H).
Defined.

(** ** From weather code to rating and packing list *)

Ltac decide_occurs :=
  solve [ econstructor;
          first [ apply str_in_spec; reflexivity
                | apply str_in_false; reflexivity ] ].

(** X6: of all weather codes only 95, 80 and 45 lower the rating (by
    4, 2 and 1): the texts of 61 (Light rain) and 51 (Light drizzle) do
    not contain Rain with a capital.  The waterproof cover of the beach
    packing list, tested without regard to case, goes with codes 61 and
    80 and no other. *)
Theorem weather_code_effects (code : Z) :
  Spec.condition_rule (translate_weather_code code)
    (if code =? 95 then 4 else if code =? 80 then 2
     else if code =? 45 then 1 else 0)%Q
  /\ (Py.str_in "rain" (Py.lower (translate_weather_code code)) = true
      <-> code = 61 \/ code = 80).
Proof.
  unfold translate_weather_code. rewrite weather_codes_lookup.
  repeat case_decide; subst; cbn [default];
    repeat match goal with
      | H : code <> ?k |- _ => apply Z.eqb_neq in H; rewrite ?H
      end;
    (split; [decide_occurs |]);
    first [ split; [intros _; auto | reflexivity]
          | split; [discriminate |];
            repeat match goal with
              | H : (code =? ?k) = false |- _ => apply Z.eqb_neq in H
              end; lia ].
Qed.

(** ** Weather provider *)

Lemma py_max_cases (a b : Q) :
  (Py.max a b = a \/ Py.max a b = b)
  /\ (a <= Py.max a b)%Q /\ (b <= Py.max a b)%Q.
Proof.
  unfold Py.max. destruct (Py.gt b a) eqn:H.
  - apply gt_spec in H. repeat split; auto using Qlt_le_weak, Qle_refl.
  - apply gt_false in H. repeat split; auto using Qle_refl.
Qed.

Lemma py_min_cases (a b : Q) :
  (Py.min a b = a \/ Py.min a b = b)
  /\ (Py.min a b <= a)%Q /\ (Py.min a b <= b)%Q.
Proof.
  unfold Py.min. destruct (Py.lt b a) eqn:H.
  - apply lt_spec in H. repeat split; auto using Qlt_le_weak, Qle_refl.
  - apply lt_false in H. repeat split; auto using Qle_refl.
Qed.

Lemma fold_max_spec (l : list Q) (x : Q) :
  fold_left Py.max l x ∈ x :: l
  /\ forall y, y ∈ x :: l -> (y <= fold_left Py.max l x)%Q.
Proof.
  revert x. induction l as [| z l IH]; intros x; simpl.
  - split; [apply list_elem_of_here |].
    intros y Hy. apply list_elem_of_singleton in Hy as ->. apply Qle_refl.
  - destruct (IH (Py.max x z)) as [Hin Hle].
    destruct (py_max_cases x z) as (Hm & Hx & Hz).
    assert (Htop : (Py.max x z <= fold_left Py.max l (Py.max x z))%Q)
      by apply Hle, list_elem_of_here.
    split.
    + apply elem_of_cons in Hin as [Hin | Hin].
      * rewrite Hin.
        destruct Hm as [-> | ->];
          [apply list_elem_of_here
          | apply list_elem_of_further, list_elem_of_here].
      * now do 2 apply list_elem_of_further.
    + intros y Hy.
      apply elem_of_cons in Hy as [-> | Hy];
        [eapply Qle_trans; eassumption |].
      apply elem_of_cons in Hy as [-> | Hy];
        [eapply Qle_trans; eassumption |].
      now apply Hle, list_elem_of_further.
Qed.

Lemma fold_min_spec (l : list Q) (x : Q) :
  fold_left Py.min l x ∈ x :: l
  /\ forall y, y ∈ x :: l -> (fold_left Py.min l x <= y)%Q.
Proof.
  revert x. induction l as [| z l IH]; intros x; simpl.
  - split; [apply list_elem_of_here |].
    intros y Hy. apply list_elem_of_singleton in Hy as ->. apply Qle_refl.
  - destruct (IH (Py.min x z)) as [Hin Hle].
    destruct (py_min_cases x z) as (Hm & Hx & Hz).
    assert (Hbot : (fold_left Py.min l (Py.min x z) <= Py.min x z)%Q)
      by apply Hle, list_elem_of_here.
    split.
    + apply elem_of_cons in Hin as [Hin | Hin].
      * rewrite Hin.
        destruct Hm as [-> | ->];
          [apply list_elem_of_here
          | apply list_elem_of_further, list_elem_of_here].
      * now do 2 apply list_elem_of_further.
    + intros y Hy.
      apply elem_of_cons in Hy as [-> | Hy];
        [eapply Qle_trans; eassumption |].
      apply elem_of_cons in Hy as [-> | Hy];
        [eapply Qle_trans; eassumption |].
      now apply Hle, list_elem_of_further.
Qed.

(** X7: for an answer with status 200, a daily UV maximum and at least
    one hourly temperature, the forecast high and low are two of the
    first 24 hourly temperatures and bound all of them; later hours
    play no part. *)
Theorem get_weather_forecast_bounds (data : WeatherResponse) :
  status_code data = 200 ->
  daily_uv_index_max data <> [] ->
  hourly_temperature_2m data <> [] ->
  let w := get_weather (Some data) in
  let day := take 24 (hourly_temperature_2m data) in
  forecast_max w ∈ day /\ forecast_min w ∈ day
  /\ (forall t, t ∈ day -> (forecast_min w <= t)%Q /\ (t <= forecast_max w)%Q)
  /\ conditions w = translate_weather_code (current_weather_code data)
  /\ Some (uv_max w) = head (daily_uv_index_max data).
Proof.
  intros Hs Hd Hh w day. subst w. unfold get_weather.
  rewrite Hs, Z.eqb_refl.
  destruct (daily_uv_index_max data) as [| u0 us]; [contradiction |].
  destruct (hourly_temperature_2m data) as [| x0 xs] eqn:Hx; [contradiction |].
  subst day. change (take 24 (x0 :: xs)) with (x0 :: take 23 xs).
  cbn [max_list min_list forecast_max forecast_min conditions uv_max head].
  destruct (fold_max_spec (take 23 xs) x0) as [Hmi Hml].
  destruct (fold_min_spec (take 23 xs) x0) as [Hni Hnl].
  repeat split; auto.
Qed.

Lemma get_weather_forecast_bounds_witness :
  status_code sample_response = 200
  /\ daily_uv_index_max sample_response <> []
  /\ hourly_temperature_2m sample_response <> []
  /\ forecast_max (get_weather (Some sample_response))
       ∈ take 24 (hourly_temperature_2m sample_response).
Proof.
  assert (H1 : status_code sample_response = 200) by reflexivity.
  assert (H2 : daily_uv_index_max sample_response <> []) by discriminate.
  assert (H3 : hourly_temperature_2m sample_response <> []) by discriminate.
  split; [exact H1 |]. split; [exact H2 |]. split; [exact H3 |].
  exact (proj1 (get_weather_forecast_bounds sample_response H1 H2 H3)).
Defined.

(** X8: whenever the request fails, answers with another status, or
    lacks the daily UV maximum or the hourly temperatures, the fixed
    fallback is returned; it is rated 8, Very Safe, its UV risk is
    High, and its beach packing list is the five base items. *)
Theorem get_weather_failure_fallback (response : option WeatherResponse) :
  match response with
  | None => True
  | Some data => status_code data <> 200
                 \/ daily_uv_index_max data = []
                 \/ hourly_temperature_2m data = []
  end ->
  let w := get_weather response in
  w = fallback_weather
  /\ (get_safety_rating w == 8)%Q
  /\ safety_label (get_safety_rating w) = "Very Safe"
  /\ uv_risk_level (uv_index w) = "High"
  /\ generate_beach_packing_list w (uv_index w) = base_items.
Proof.
  intros H w.
  assert (Hw : w = fallback_weather).
  { subst w. unfold get_weather. destruct response as [data |]; [| reflexivity].
    destruct (Z.eqb_spec (status_code data) 200) as [Hs | Hs]; [| reflexivity].
    destruct H as [H | [H | H]]; [contradiction | now rewrite H |].
    rewrite H. now destruct (daily_uv_index_max data). }
  rewrite Hw. repeat split.
Qed.

Lemma get_weather_failure_fallback_witness :
  get_weather None = fallback_weather.
Proof. exact (proj1 (get_weather_failure_fallback None I)). Defined.

(** ** Beach score: how it moves with its inputs *)

Lemma any_same_elements {A} (p : A -> bool) (l1 l2 : list A) :
  (forall x, x ∈ l1 <-> x ∈ l2) -> Py.any p l1 = Py.any p l2.
Proof.
  intros Hsame. apply eq_true_iff_eq.
  rewrite !any_spec, !Exists_exists.
  split; intros (x & Hx & Hp); exists x; split; auto; now apply Hsame.
Qed.

(** X9: the score depends on the hazards as a set: two lists with the
    same entries, in any order and with any repetitions, score alike. *)
Theorem beach_score_hazards_as_set
  (uv : Q) (hazards hazards' : list string) (has_lifeguard : bool) :
  (forall h, h ∈ hazards <-> h ∈ hazards') ->
  get_beach_safety_score uv hazards has_lifeguard
  = get_beach_safety_score uv hazards' has_lifeguard.
Proof.
  intros Hsame. unfold get_beach_safety_score, score_before_bounds.
  now rewrite (any_same_elements _ hazards hazards' Hsame),
              (any_same_elements _ hazards hazards' Hsame).
Qed.

Lemma beach_score_hazards_as_set_witness :
  (forall h, h ∈ ["Cyclone watch"; "Tsunami warning"]
             <-> h ∈ ["Tsunami warning"; "Cyclone watch"; "Tsunami warning"])
  /\ get_beach_safety_score 6 ["Cyclone watch"; "Tsunami warning"] true
     = get_beach_safety_score 6
         ["Tsunami warning"; "Cyclone watch"; "Tsunami warning"] true.
Proof.
  assert (H : forall h : string,
             h ∈ ["Cyclone watch"; "Tsunami warning"]
             <-> h ∈ ["Tsunami warning"; "Cyclone watch"; "Tsunami warning"]).
  { intros h. rewrite !elem_of_cons, !elem_of_nil. tauto. }
  split; [exact H |].
  exact (beach_score_hazards_as_set 6 _ _ true H).
Defined.

Lemma any_app {A} (p : A -> bool) (l1 l2 : list A) :
  Py.any p (l1 ++ l2) = Py.any p l1 || Py.any p l2.
Proof. apply existsb_app. Qed.

(** X10: a higher UV index or further hazards never raise the score. *)
Theorem beach_score_monotone
  (uv1 uv2 : Q) (hazards more : list string) (has_lifeguard : bool) :
  (uv1 <= uv2)%Q ->
  get_beach_safety_score uv2 (hazards ++ more) has_lifeguard
  <= get_beach_safety_score uv1 hazards has_lifeguard.
Proof.
  intros Hu.
  pose proof (gt_mono uv1 uv2 8 Hu) as H8.
  pose proof (gt_mono uv1 uv2 5 Hu) as H5.
  unfold get_beach_safety_score, score_before_bounds.
  rewrite !any_app.
  destruct (Py.gt uv1 8), (Py.gt uv1 5);
    try rewrite (H8 eq_refl); try rewrite (H5 eq_refl);
    destruct (Py.gt uv2 8), (Py.gt uv2 5),
      (Py.any (fun h => Py.str_in "tsunami" (Py.lower h)) hazards),
      (Py.any (fun h => Py.str_in "cyclone" (Py.lower h)) hazards),
      (Py.any (fun h => Py.str_in "tsunami" (Py.lower h)) more),
      (Py.any (fun h => Py.str_in "cyclone" (Py.lower h)) more),
      has_lifeguard;
    apply Z.leb_le; reflexivity.
Qed.

Lemma beach_score_monotone_witness :
  (4 <= 9)%Q
  /\ get_beach_safety_score 9 (["Rip current"] ++ ["Cyclone watch"]) false
     <= get_beach_safety_score 4 ["Rip current"] false.
Proof.
  assert (H : (4 <= 9)%Q) by (apply Qle_bool_iff; reflexivity).
  split; [exact H |].
  exact (beach_score_monotone 4 9 ["Rip current"] ["Cyclone watch"] false H).
Defined.

(** X11: a lifeguard always adds exactly one point: the upper bound of
    the clamp never takes it away. *)
Theorem beach_score_lifeguard_adds_one (uv : Q) (hazards : list string) :
  get_beach_safety_score uv hazards true
  = get_beach_safety_score uv hazards false + 1.
Proof.
  unfold get_beach_safety_score, score_before_bounds.
  branch_all; reflexivity.
Qed.

(** ** Tide selection: absence, other types, order *)

Lemma tide_step_other_type (now : Z) (st : TideState) (x : Tide) :
  ~ (tide_type x = "high" \/ tide_type x = "low") ->
  tide_step now st x = st.
Proof.
  intros H. unfold tide_step.
  destruct (tide_time x <? now); [reflexivity |].
  destruct (String.eqb_spec (tide_type x) "high"); [tauto |].
  destruct (String.eqb_spec (tide_type x) "low"); [tauto | reflexivity].
Qed.

Lemma fold_other_types (now : Z) (data : list Tide) (st : TideState) :
  fold_left (tide_step now)
    (filter (fun t => tide_type t = "high" \/ tide_type t = "low") data) st
  = fold_left (tide_step now) data st.
Proof.
  revert st. induction data as [| x data IH]; intros st; [reflexivity |].
  destruct (decide (tide_type x = "high" \/ tide_type x = "low")) as [H | H].
  - rewrite filter_cons_True by assumption. simpl. apply IH.
  - rewrite filter_cons_False by assumption. simpl.
    now rewrite IH, tide_step_other_type.
Qed.

(** X12: an event whose type is neither high nor low is passed over:
    dropping all such events leaves the result as it is. *)
Theorem tide_other_types_ignored (now : Z) (data : list Tide) :
  select_tides now
    (filter (fun t => tide_type t = "high" \/ tide_type t = "low") data)
  = select_tides now data.
Proof. apply fold_other_types. Qed.

Lemma earliest_time_unique (now : Z) (kind : string)
  (data data' : list Tide) (res res' : option TideMark) :
  (forall t, t ∈ data <-> t ∈ data') ->
  Spec.earliest_from now kind data res ->
  Spec.earliest_from now kind data' res' ->
  mark_time <$> res = mark_time <$> res'.
Proof.
  intros Hsame H H'.
  destruct res as [m |], res' as [m' |]; simpl in *.
  - destruct H as (t & Hin & Hk & Hnow & -> & Hmin).
    destruct H' as (t' & Hin' & Hk' & Hnow' & -> & Hmin').
    simpl. f_equal.
    apply Hsame in Hin. apply Hsame in Hin'.
    specialize (Hmin t' Hin' Hk' Hnow').
    specialize (Hmin' t Hin Hk Hnow). lia.
  - destruct H as (t & Hin & Hk & Hnow & _).
    apply Hsame in Hin. specialize (H' t Hin Hk). lia.
  - destruct H' as (t & Hin & Hk & Hnow & _).
    apply Hsame in Hin. specialize (H t Hin Hk). lia.
  - reflexivity.
Qed.

(** X13: the times of the next high and the next low tide do not depend
    on the order in which the answer lists its events, nor on
    repetitions. *)
Theorem tide_times_order_free (now : Z) (data data' : list Tide) :
  (forall t, t ∈ data <-> t ∈ data') ->
  mark_time <$> next_high (select_tides now data)
    = mark_time <$> next_high (select_tides now data')
  /\ mark_time <$> next_low (select_tides now data)
     = mark_time <$> next_low (select_tides now data').
Proof.
  intros Hsame.
  destruct (select_tides_earliest now data) as [Hh Hl].
  destruct (select_tides_earliest now data') as [Hh' Hl'].
  split; eapply earliest_time_unique; eassumption.
Qed.

Lemma tide_times_order_free_witness :
  (forall t, t ∈ tides_tied <-> t ∈ tides_tied_swapped)
  /\ mark_time <$> next_high (select_tides 100 tides_tied)
     = mark_time <$> next_high (select_tides 100 tides_tied_swapped).
Proof.
  assert (H : forall t, t ∈ tides_tied <-> t ∈ tides_tied_swapped).
  { intros t. unfold tides_tied, tides_tied_swapped.
    rewrite !elem_of_cons, !elem_of_nil. tauto. }
  split; [exact H |].
  exact (proj1 (tide_times_order_free 100 tides_tied tides_tied_swapped H)).
Defined.

(** The height, unlike the time, can depend on the order: of two tides
    at the same instant the first listed is kept. *)
Example tide_height_follows_order :
  next_high (select_tides 100 tides_tied)
    = Some (mkMark 200 (HeightValue 2))
  /\ next_high (select_tides 100 tides_tied_swapped)
     = Some (mkMark 200 (HeightValue 3)).
Proof. split; reflexivity. Qed.

Section TideInvariant.

Variable now : Z.
Variable P : string -> list Tide -> option TideMark -> Prop.

Hypothesis P_nil : forall kind, P kind [] None.

Hypothesis P_keep : forall kind data x res,
  P kind data res ->
  tide_type x <> kind \/ tide_time x < now
  \/ improves (tide_time x) res = false ->
  P kind (data ++ [x]) res.

Hypothesis P_take : forall kind data x res,
  P kind data res ->
  tide_type x = kind -> now <= tide_time x ->
  improves (tide_time x) res = true ->
  P kind (data ++ [x]) (Some (mkMark (tide_time x) (tide_height x))).

(** A property of the choice for one type that survives a passed-over
    event and an accepted one holds of both choices when the loop ends. *)
Lemma select_tides_invariant (data : list Tide) :
  P "high" data (next_high (select_tides now data))
  /\ P "low" data (next_low (select_tides now data)).
Proof.
  induction data as [| x data [IHh IHl]] using rev_ind.
  - split; apply P_nil.
  - rewrite select_tides_snoc. unfold tide_step.
    destruct (Z.ltb_spec (tide_time x) now) as [Hpast | Hfut].
    { split; apply P_keep; auto. }
    destruct (String.eqb_spec (tide_type x) "high") as [Hh | Hh].
    + assert (Hl : tide_type x <> "low") by (rewrite Hh; discriminate).
      destruct (improves (tide_time x) (next_high _)) eqn:Himp;
        cbn [next_high next_low]; split;
        first [ now apply (P_take "high" data x _ IHh)
              | apply P_keep; auto ].
    + destruct (String.eqb_spec (tide_type x) "low") as [Hl | Hl].
      * destruct (improves (tide_time x) (next_low _)) eqn:Himp;
          cbn [next_high next_low]; split;
          first [ now apply (P_take "low" data x _ IHl)
                | apply P_keep; auto ].
      * split; apply P_keep; auto.
Qed.

End TideInvariant.

Lemma first_earliest_keep (now : Z) (kind : string) (data : list Tide)
  (x : Tide) (res : option TideMark) :
  Spec.first_earliest now kind data res ->
  tide_type x <> kind \/ tide_time x < now
  \/ improves (tide_time x) res = false ->
  Spec.first_earliest now kind (data ++ [x]) res.
Proof.
  intros Hres Hx. destruct res as [m |]; simpl in *.
  - destruct Hres as (pre & t & post & -> & Hk & Hnow & -> & Hpre & Hpost).
    exists pre, t, (post ++ [x]).
    split; [now rewrite <- app_assoc |].
    repeat split; try assumption.
    intros t' Hin' Hk' Hnow'.
    apply elem_of_app in Hin' as [Hin' | Hin']; [now apply Hpost |].
    apply list_elem_of_singleton in Hin' as ->.
    destruct Hx as [Hx | [Hx | Hx]]; [contradiction | lia |].
    simpl in Hx. lia.
  - intros t Hin Hk.
    apply elem_of_app in Hin as [Hin | Hin]; [now apply Hres |].
    apply list_elem_of_singleton in Hin as ->.
    destruct Hx as [Hx | [Hx | Hx]]; [contradiction | lia | discriminate].
Qed.

Lemma first_earliest_take (now : Z) (kind : string) (data : list Tide)
  (x : Tide) (res : option TideMark) :
  Spec.first_earliest now kind data res ->
  tide_type x = kind -> now <= tide_time x ->
  improves (tide_time x) res = true ->
  Spec.first_earliest now kind (data ++ [x])
    (Some (mkMark (tide_time x) (tide_height x))).
Proof.
  intros Hres Hk Hnow Himp. simpl.
  exists data, x, []. repeat split; try assumption.
  - intros t' Hin' Hk' Hnow'.
    destruct res as [m |]; simpl in *.
    + destruct Hres as (pre & t & post & -> & _ & _ & -> & Hpre & Hpost).
      simpl in Himp.
      apply elem_of_app in Hin' as [Hin' | Hin'].
      * specialize (Hpre t' Hin' Hk' Hnow'). lia.
      * apply elem_of_cons in Hin' as [-> | Hin']; [lia |].
        specialize (Hpost t' Hin' Hk' Hnow'). lia.
    + specialize (Hres t' Hin' Hk'). lia.
  - intros t' Hin'. now apply elem_of_nil in Hin'.
Qed.

(** X14: when several events of one type share the earliest time that
    is not before the query, the one listed first is reported, with its
    height: every qualifying event before it in the answer is strictly
    later. *)
Theorem tide_first_of_ties (now : Z) (data : list Tide) :
  Spec.first_earliest now "high" data (next_high (select_tides now data))
  /\ Spec.first_earliest now "low" data (next_low (select_tides now data)).
Proof.
  apply (select_tides_invariant now (Spec.first_earliest now)).
  - intros kind t Hin. now apply elem_of_nil in Hin.
  - intros kind d x res. apply first_earliest_keep.
  - intros kind d x res. apply first_earliest_take.
Qed.

(** ** Tide part of the page *)

Lemma select_tides_some_iff (now : Z) (data : list Tide) :
  (is_Some (next_high (select_tides now data))
   <-> exists t, t ∈ data /\ tide_type t = "high" /\ now <= tide_time t)
  /\ (is_Some (next_low (select_tides now data))
      <-> exists t, t ∈ data /\ tide_type t = "low" /\ now <= tide_time t).
Proof.
  destruct (select_tides_earliest now data) as [Hh Hl].
  split; split.
  - intros [m Hm]. rewrite Hm in Hh.
    destruct Hh as (t & Hin & Hk & Hnow & _). eauto.
  - intros (t & Hin & Hk & Hnow).
    destruct (next_high _) as [m |]; [eauto |].
    specialize (Hh t Hin Hk). lia.
  - intros [m Hm]. rewrite Hm in Hl.
    destruct Hl as (t & Hin & Hk & Hnow & _). eauto.
  - intros (t & Hin & Hk & Hnow).
    destruct (next_low _) as [m |]; [eauto |].
    specialize (Hl t Hin Hk). lia.
Qed.

Lemma tide_page_of_state (st : TideState) :
  ((exists m, HighTideMetric m ∈ tide_section (TideOk st))
   <-> is_Some (next_high st))
  /\ ((exists m, LowTideMetric m ∈ tide_section (TideOk st))
      <-> is_Some (next_low st))
  /\ (forall msg, TideWarning msg ∉ tide_section (TideOk st))
  /\ (next_high st = None -> next_low st = None ->
      tide_section (TideOk st) = []).
Proof.
  destruct st as [[mh |] [ml |]]; cbn [tide_section next_high next_low app].
  all: split; [| split; [| split]].
  all: try (intros; reflexivity).
  all: try (intros; discriminate).
  all: try (intros msg H; rewrite ?elem_of_cons, ?elem_of_nil in H;
            intuition discriminate).
  all: split.
  all: try solve [intros _; eauto].
  all: try solve [intros _; eexists; rewrite ?elem_of_cons; eauto].
  all: try solve [intros (m & H); rewrite ?elem_of_cons, ?elem_of_nil in H;
                  exfalso; intuition discriminate].
  all: try solve [intros [m H]; discriminate].
Qed.

(** X15: the tide part shows a warning exactly when the answer holds
    no event at all; it shows the next high (low) tide exactly when
    some high (low) tide is not before the query time.  With events
    that are all past it shows nothing, not even a warning. *)
Theorem tide_section_shows (now : Z) (data : list Tide) :
  let page := tide_section (get_tide_data now data) in
  ((exists msg, TideWarning msg ∈ page) <-> data = [])
  /\ ((exists m, HighTideMetric m ∈ page)
      <-> exists t, t ∈ data /\ tide_type t = "high" /\ now <= tide_time t)
  /\ ((exists m, LowTideMetric m ∈ page)
      <-> exists t, t ∈ data /\ tide_type t = "low" /\ now <= tide_time t)
  /\ (data <> [] ->
      (forall t, t ∈ data -> tide_time t < now) -> page = []).
Proof.
  intros page. subst page. unfold get_tide_data.
  destruct data as [| x data].
  { cbn [tide_section]. split; [| split; [| split]].
    - split; [reflexivity |]. intros _. eexists. apply list_elem_of_here.
    - split.
      + intros (m & H). apply list_elem_of_singleton in H. discriminate.
      + intros (t & H & _). now apply elem_of_nil in H.
    - split.
      + intros (m & H). apply list_elem_of_singleton in H. discriminate.
      + intros (t & H & _). now apply elem_of_nil in H.
    - contradiction. }
  set (l := x :: data).
  destruct (tide_page_of_state (select_tides now l)) as (Ph & Pl & Pw & Pe).
  destruct (select_tides_some_iff now l) as [Sh Sl].
  split; [| split; [| split]].
  - split; [| discriminate]. intros (msg & H). now apply Pw in H.
  - now rewrite Ph.
  - now rewrite Pl.
  - intros _ Hall. apply Pe.
    + destruct (next_high _) as [m |] eqn:E; [| reflexivity].
      destruct (proj1 Sh (ex_intro _ m eq_refl)) as (t & Hin & _ & Hnow).
      specialize (Hall t Hin). lia.
    + destruct (next_low _) as [m |] eqn:E; [| reflexivity].
      destruct (proj1 Sl (ex_intro _ m eq_refl)) as (t & Hin & _ & Hnow).
      specialize (Hall t Hin). lia.
Qed.

(** ** Cached calls *)

Section CacheFacts.

Context {K V : Type}.
Variable same_key : K -> K -> bool.
Variable still_served : Z -> Z -> Z -> bool.

Lemma cache_data_miss (ttl : Z) (body : K -> V) (now : Z) (k : K)
  (cache : list (CacheEntry K V)) :
  cache_get same_key still_served ttl now k cache = None ->
  cache_data same_key still_served ttl body now k cache
  = (body k, mkEntry k (body k) now :: cache).
Proof. intros H. unfold cache_data. now rewrite H. Qed.

Lemma cache_data_hit (ttl : Z) (body : K -> V) (now : Z) (k : K)
  (cache : list (CacheEntry K V)) (v : V) :
  cache_get same_key still_served ttl now k cache = Some v ->
  cache_data same_key still_served ttl body now k cache = (v, cache).
Proof. intros H. unfold cache_data. now rewrite H. Qed.

(** The entry just stored is served to a later call with the same
    argument for as long as the rule allows. *)
Lemma cache_get_stored (ttl now now' : Z) (k k' : K) (v : V)
  (cache : list (CacheEntry K V)) :
  same_key k k' = true ->
  still_served ttl now now' = true ->
  cache_get same_key still_served ttl now' k' (mkEntry k v now :: cache)
  = Some v.
Proof.
  intros Hk Hs. unfold cache_get. cbn [cache_entry entry_key].
  rewrite Hk. cbn [entry_time entry_value]. now rewrite Hs.
Qed.


End CacheFacts.

(** ** Simulated water quality *)

Lemma water_quality_body_index (hour : Z) (location : string) :
  let k := (Z.of_nat (Py.len location) + hour) mod 4 in
  (k = 0 /\ water_quality_body hour location = "Excellent")
  \/ (k = 1 /\ water_quality_body hour location = "Good")
  \/ (k = 2 /\ water_quality_body hour location = "Fair")
  \/ (k = 3 /\ water_quality_body hour location = "Poor").
Proof.
  intros k. unfold water_quality_body. fold k.
  assert (H : k = 0 \/ k = 1 \/ k = 2 \/ k = 3)
    by (pose proof (Z.mod_pos_bound (Z.of_nat (Py.len location) + hour) 4);
        subst k; lia).
  clearbody k. destruct H as [-> | [-> | [-> | ->]]]; cbn; tauto.
Qed.

Lemma water_quality_body_eq_iff (loc1 loc2 : string) (h1 h2 : Z) :
  water_quality_body h1 loc1 = water_quality_body h2 loc2
  <-> (Z.of_nat (Py.len loc1) + h1) mod 4
      = (Z.of_nat (Py.len loc2) + h2) mod 4.
Proof.
  destruct (water_quality_body_index h1 loc1)
    as [[-> ->] | [[-> ->] | [[-> ->] | [-> ->]]]];
    destruct (water_quality_body_index h2 loc2)
      as [[-> ->] | [[-> ->] | [[-> ->] | [-> ->]]]];
    split; intros H; first [reflexivity | discriminate H].
Qed.

Lemma water_quality_body_next_hour (hour : Z) (location : string) :
  water_quality_body (hour + 1) location <> water_quality_body hour location.
Proof.
  rewrite water_quality_body_eq_iff. intros H.
  Z.div_mod_to_equations. lia.
Qed.

(** X16: a run of the body of get_water_quality, which is what a call
    not served from the cache returns, gives one of Excellent, Good,
    Fair and Poor, never Unknown; two runs agree exactly when the
    number of characters of the location plus the hour agree modulo 4,
    so the runs of consecutive hours differ and those four hours apart
    agree; swimming is called safe exactly when that remainder is 0
    or 1. *)
Theorem water_quality_by_remainder (loc1 loc2 : string) (h1 h2 : Z) :
  let k1 := (Z.of_nat (Py.len loc1) + h1) mod 4 in
  let k2 := (Z.of_nat (Py.len loc2) + h2) mod 4 in
  water_quality_body h1 loc1 ∈ qualities
  /\ (water_quality_body h1 loc1 = water_quality_body h2 loc2 <-> k1 = k2)
  /\ water_quality_body (h1 + 1) loc1 <> water_quality_body h1 loc1
  /\ water_quality_body (h1 + 4) loc1 = water_quality_body h1 loc1
  /\ (swimming_note (water_quality_body h1 loc1) = "Safe for swimming"
      <-> k1 < 2).
Proof.
  intros k1 k2. split; [| split; [| split; [| split]]].
  - destruct (water_quality_body_index h1 loc1)
      as [[_ ->] | [[_ ->] | [[_ ->] | [_ ->]]]];
      apply list_elem_of_In; cbn; auto 6.
  - apply water_quality_body_eq_iff.
  - apply water_quality_body_next_hour.
  - rewrite water_quality_body_eq_iff. Z.div_mod_to_equations. lia.
  - subst k1.
    destruct (water_quality_body_index h1 loc1)
      as [[-> ->] | [[-> ->] | [[-> ->] | [-> ->]]]];
      (split; [intros H; first [lia | discriminate H]
              | intros H; first [reflexivity | lia]]).
Qed.

(** The length is counted in characters: four for a name of five
    bytes. *)
Example water_quality_counts_characters :
  water_quality_body 0 "Côte" = "Excellent"
  /\ water_quality_body 1 "Côte" = "Good".
Proof. split; reflexivity. Qed.

Section WaterQualityCache.

Variable still_served : Z -> Z -> Z -> bool.



(** X24: once a call has run the body, a later call for the same
    location that the cache still serves returns the same value and
    leaves the cache as it is, although the body run at the next hour
    would give another value. *)
Theorem water_quality_stale (now later hour hour' : Z) (location : string)
  (cache : list (CacheEntry string string)) :
  cache_get String.eqb still_served 86400 now location cache = None ->
  still_served 86400 now later = true ->
  let first := get_water_quality still_served now hour location cache in
  let second := get_water_quality still_served later hour' location first.2 in
  first.1 = water_quality_body hour location
  /\ second.1 = first.1
  /\ second.2 = first.2
  /\ water_quality_body (hour + 1) location <> first.1.
Proof.
  intros Hmiss Hs first second. subst second first.
  unfold get_water_quality. rewrite (cache_data_miss _ _ _ _ _ _ _ Hmiss).
  cbn [fst snd].
  rewrite (cache_data_hit String.eqb still_served 86400 _ later location _
             (water_quality_body hour location))
    by (apply cache_get_stored; [apply String.eqb_refl | exact Hs]).
  cbn [fst snd]. repeat split.
  apply water_quality_body_next_hour.
Qed.

End WaterQualityCache.


Lemma water_quality_stale_witness :
  cache_get (V := string) String.eqb younger_than_ttl 86400 0
    "Puri Beach" [] = None
  /\ younger_than_ttl 86400 0 3600 = true
  /\ (get_water_quality younger_than_ttl 3600 11 "Puri Beach"
        (get_water_quality younger_than_ttl 0 10 "Puri Beach" []).2).1
     = (get_water_quality younger_than_ttl 0 10 "Puri Beach" []).1.
Proof.
  split; [reflexivity |]. split; [reflexivity |].
  exact (proj1 (proj2 (water_quality_stale younger_than_ttl 0 3600 10 11
                         "Puri Beach" [] eq_refl eq_refl))).
Defined.

(** ** Simulated facilities *)

(** X17: a run of the body of get_beach_facilities, which is what a
    call not served from the cache returns, gives at most four
    facilities.  A session location that mentions beach gets exactly
    Lifeguard, First Aid, Showers and Restrooms whatever else it
    mentions: the extras for Goa and Puri are cut off, and appear only
    without beach in the name.  With no location in the session the
    list is empty.  The coordinates play no part. *)
Theorem beach_facilities_cases (location : string) (coordinates : Q * Q) :
  let found := beach_facilities_body (Some location) coordinates in
  (length found <= 4)%nat
  /\ (Spec.occurs_nocase "beach" location ->
      found = ["Lifeguard"; "First Aid"; "Showers"; "Restrooms"])
  /\ (~ Spec.occurs_nocase "beach" location ->
      Spec.occurs_nocase "goa" location ->
      found = ["Water Sports"; "Beach Shacks"])
  /\ (~ Spec.occurs_nocase "beach" location ->
      ~ Spec.occurs_nocase "goa" location ->
      Spec.occurs_nocase "puri" location ->
      found = ["Changing Rooms"; "Beach Chairs"])
  /\ (~ Spec.occurs_nocase "beach" location ->
      ~ Spec.occurs_nocase "goa" location ->
      ~ Spec.occurs_nocase "puri" location -> found = [])
  /\ beach_facilities_body None coordinates = [].
Proof.
  intros found. subst found. unfold beach_facilities_body.
  cbn [default from_option id].
  rewrite <- !str_in_lower_spec.
  destruct (Py.str_in "beach" (Py.lower location)),
           (Py.str_in "goa" (Py.lower location)),
           (Py.str_in "puri" (Py.lower location));
    cbn; repeat split; intros; try reflexivity; try congruence; lia.
Qed.


Lemma same_coordinates_eq (a b : Q * Q) :
  (a.1 == b.1)%Q -> (a.2 == b.2)%Q -> same_coordinates a b = true.
Proof.
  intros H1 H2. unfold same_coordinates.
  apply andb_true_iff. split; now apply Qeq_bool_iff.
Qed.

Section FacilitiesCache.

Variable still_served : Z -> Z -> Z -> bool.



(** X26: the cache of get_beach_facilities goes by the coordinates
    alone: once a call has run the body, a later call with equal
    coordinates that the cache still serves returns the list of the
    first call, whatever location the session holds by then. *)
Theorem beach_facilities_stale (now later : Z)
  (session session' : option string) (lat lng lat' lng' : Q)
  (cache : list (CacheEntry (Q * Q) (list string))) :
  cache_get same_coordinates still_served 86400 now (lat, lng) cache = None ->
  still_served 86400 now later = true ->
  (lat == lat')%Q -> (lng == lng')%Q ->
  let first := get_beach_facilities still_served now session lat lng cache in
  let second :=
    get_beach_facilities still_served later session' lat' lng' first.2 in
  first.1 = beach_facilities_body session (lat, lng)
  /\ second.1 = first.1
  /\ second.2 = first.2.
Proof.
  intros Hmiss Hs Hlat Hlng first second. subst second first.
  unfold get_beach_facilities. rewrite (cache_data_miss _ _ _ _ _ _ _ Hmiss).
  cbn [fst snd].
  rewrite (cache_data_hit same_coordinates still_served 86400 _ later
             (lat', lng') _ (beach_facilities_body session (lat, lng)))
    by (apply cache_get_stored; [now apply same_coordinates_eq | exact Hs]).
  cbn [fst snd]. repeat split.
Qed.

End FacilitiesCache.


Lemma beach_facilities_stale_witness :
  cache_get (V := list string) same_coordinates younger_than_ttl 86400 0
    (198 # 10, 858 # 10)%Q [] = None
  /\ younger_than_ttl 86400 0 3600 = true
  /\ (198 # 10 == 99 # 5)%Q /\ (858 # 10 == 429 # 5)%Q
  /\ (get_beach_facilities younger_than_ttl 3600 (Some "puri beach")
        (99 # 5) (429 # 5)
        (get_beach_facilities younger_than_ttl 0 (Some "puri shore")
           (198 # 10) (858 # 10) []).2).1
     = (get_beach_facilities younger_than_ttl 0 (Some "puri shore")
          (198 # 10) (858 # 10) []).1.
Proof.
  split; [reflexivity |]. split; [reflexivity |].
  split; [reflexivity |]. split; [reflexivity |].
  exact (proj1 (proj2 (beach_facilities_stale younger_than_ttl 0 3600
                         (Some "puri shore"%string) (Some "puri beach"%string)
                         (198 # 10) (858 # 10) (99 # 5) (429 # 5) []
                         eq_refl eq_refl eq_refl eq_refl))).
Defined.

(** The stale list is the one for "puri shore", not the four
    facilities of a beach. *)
Example beach_facilities_stale_sample :
  (get_beach_facilities younger_than_ttl 3600 (Some "puri beach")
     (198 # 10) (858 # 10) facilities_cache_after_one).1
  = ["Changing Rooms"; "Beach Chairs"]
  /\ beach_facilities_body (Some "puri beach") (198 # 10, 858 # 10)%Q
     = ["Lifeguard"; "First Aid"; "Showers"; "Restrooms"].
Proof. split; reflexivity. Qed.

(** ** Start of the report *)

Section ReportFacts.

Variable get_coordinates : string -> option Q * option Q * option string.
Variable great_circle_km : Q * Q -> Q * Q -> Q.

(** X18: a place that resolves to latitude 0 or longitude 0 is reported
    as not found, since a zero coordinate counts as false there, while
    [estimate_flight_distance], which tests for [None] only, takes the
    same coordinates as resolved. *)
Theorem report_rejects_zero_coordinate
  (location destination : string) (lat lng dlat dlng : Q)
  (addr daddr : option string) :
  location <> EmptyString ->
  get_coordinates location = (Some lat, Some lng, addr) ->
  get_coordinates destination = (Some dlat, Some dlng, daddr) ->
  (lat == 0)%Q \/ (lng == 0)%Q ->
  report_start get_coordinates location = ErrorNoCoordinates
  /\ estimate_flight_distance get_coordinates great_circle_km
       location destination
     = great_circle_km (lat, lng) (dlat, dlng).
Proof.
  intros Hne Hloc Hdest Hzero. split.
  - unfold report_start.
    destruct (String.eqb_spec location EmptyString); [contradiction |].
    rewrite Hloc. cbn [falsy].
    destruct Hzero as [Hz | Hz]; apply Qeq_bool_iff in Hz; rewrite Hz;
      [reflexivity | now rewrite orb_true_r].
  - unfold estimate_flight_distance. now rewrite Hloc, Hdest.
Qed.

(** X19: the report goes ahead exactly for a non-empty location whose
    latitude and longitude are both found and both non-zero, and the
    beach part is then shown exactly when the location mentions beach,
    coast, shore or seaside in any letter case.  An empty location
    gives the warning and nothing else. *)
Theorem report_start_cases (location : string) :
  (report_start get_coordinates location = WarnEnterLocation
   <-> location = EmptyString)
  /\ ((exists lat lng, (get_coordinates location).1.1 = Some lat
                       /\ (get_coordinates location).1.2 = Some lng
                       /\ ~ (lat == 0)%Q /\ ~ (lng == 0)%Q)
      /\ location <> EmptyString
      <-> exists lat lng b,
            report_start get_coordinates location = Analyze lat lng b)
  /\ (forall lat lng b,
        report_start get_coordinates location = Analyze lat lng b ->
        lat = (get_coordinates location).1.1
        /\ lng = (get_coordinates location).1.2
        /\ (b = true <->
            Spec.occurs_nocase "beach" location
            \/ Spec.occurs_nocase "coast" location
            \/ Spec.occurs_nocase "shore" location
            \/ Spec.occurs_nocase "seaside" location)).
Proof.
  unfold report_start.
  destruct (String.eqb_spec location EmptyString) as [He | Hne].
  { split; [tauto |]. split.
    - split; [tauto | intros (? & ? & ? & H); discriminate H].
    - intros ? ? ? H. discriminate H. }
  destruct (get_coordinates location) as [[lat lng] addr]. cbn [fst snd].
  split; [split; [destruct (falsy lat || falsy lng); discriminate | tauto] |].
  split.
  - split.
    + intros ((la & ln & -> & -> & Hla & Hln) & _). cbn [falsy].
      destruct (Qeq_bool la 0) eqn:E1;
        [apply Qeq_bool_iff in E1; contradiction |].
      destruct (Qeq_bool ln 0) eqn:E2;
        [apply Qeq_bool_iff in E2; contradiction |].
      cbn. eauto.
    + intros (la & ln & b & H).
      destruct lat as [la' |], lng as [ln' |]; cbn [falsy orb] in H;
        try discriminate H;
        try (destruct (Qeq_bool la' 0); discriminate H).
      destruct (Qeq_bool la' 0) eqn:E1; [discriminate H |].
      destruct (Qeq_bool ln' 0) eqn:E2; [discriminate H |].
      split; [| assumption]. exists la', ln'.
      repeat split; try reflexivity;
        intros Hz; apply Qeq_bool_iff in Hz; congruence.
  - intros la ln b H.
    destruct (falsy lat || falsy lng); [discriminate H |].
    injection H as <- <- <-. split; [reflexivity |]. split; [reflexivity |].
    unfold is_beach_location, Py.any. cbn [existsb].
    rewrite orb_false_r, !orb_true_iff, !str_in_lower_spec. tauto.
Qed.

End ReportFacts.

Lemma report_rejects_zero_coordinate_witness :
  "Quito"%string <> EmptyString
  /\ report_start equator_geocoder "Quito" = ErrorNoCoordinates
  /\ estimate_flight_distance equator_geocoder (fun _ _ => 1%Q)
       "Quito" "Puri" = 1%Q.
Proof.
  assert (H1 : "Quito"%string <> EmptyString) by discriminate.
  split; [exact H1 |].
  refine (report_rejects_zero_coordinate equator_geocoder (fun _ _ => 1%Q)
            "Quito" "Puri" 0 (-(785 # 10)) (198 # 10) (858 # 10)
            (Some "Quito"%string) (Some "Puri, Odisha, India"%string)
            H1 eq_refl eq_refl _).
  left. reflexivity.
Defined.

(** ** Streamed guide *)

Lemma string_app_assoc (a b c : string) :
  ((a ++ b) ++ c = a ++ (b ++ c))%string.
Proof.
  induction a as [| x a IH]; [reflexivity | exact (f_equal (String x) IH)].
Qed.

Lemma string_app_nil_r (a : string) : (a ++ EmptyString)%string = a.
Proof.
  induction a as [| x a IH]; [reflexivity | exact (f_equal (String x) IH)].
Qed.

Lemma fold_stream (chunks : list (option string)) (full : string)
  (shown : list string) :
  let fragments := omap id chunks in
  fold_left stream_step chunks (full, shown)
  = ((full ++ Spec.join fragments)%string,
     shown ++ ((fun k => (full ++ Spec.join (take k fragments) ++ cursor)%string)
               <$> seq 1 (length fragments))).
Proof.
  revert full shown. induction chunks as [| [word |] chunks IH];
    intros full shown fragments; subst fragments.
  - cbn. now rewrite string_app_nil_r, app_nil_r.
  - change (omap id (Some word :: chunks)) with (word :: omap id chunks).
    cbn [fold_left stream_step fst snd Spec.join length].
    rewrite IH. f_equal.
    + apply string_app_assoc.
    + rewrite <- app_assoc. f_equal.
      rewrite <- cons_seq. cbn [fmap list_fmap app]. f_equal.
      * rewrite firstn_cons, take_0. cbn [Spec.join].
        rewrite string_app_nil_r. apply string_app_assoc.
      * rewrite <- (fmap_S_seq 1), <- list_fmap_compose.
        apply list_fmap_ext. intros _ k _.
        unfold compose. rewrite firstn_cons. cbn [Spec.join].
        now rewrite !string_app_assoc.
  - change (omap id (None :: chunks)) with (omap id chunks).
    cbn [fold_left stream_step]. apply IH.
Qed.

(** X20: the guide container shows, fragment by fragment, the text
    received so far followed by the cursor, and at the end the whole
    text without cursor: the final text is the fragments joined in
    order, and fragments that are [None] cause no redraw. *)
Theorem stream_guide_shows (chunks : list (option string)) :
  let fragments := omap id chunks in
  stream_guide chunks
  = ((fun k => (Spec.join (take k fragments) ++ cursor)%string)
     <$> seq 1 (length fragments))
    ++ [Spec.join fragments].
Proof.
  intros fragments. unfold stream_guide.
  rewrite fold_stream. cbn [fst snd app]. reflexivity.
Qed.

(** ** UV bands in order *)

Lemma le_mono (a b c : Q) :
  (a <= b)%Q -> Py.le b c = true -> Py.le a c = true.
Proof.
  intros Hab H. apply le_spec in H. apply le_spec.
  eapply Qle_trans; eassumption.
Qed.

(** X21: a higher UV index never falls into a lower band. *)
Theorem uv_risk_level_monotone (uv1 uv2 : Q) :
  (uv1 <= uv2)%Q ->
  (Spec.band_rank (uv_risk_level uv1)
   <= Spec.band_rank (uv_risk_level uv2))%nat.
Proof.
  intros Hu.
  pose proof (le_mono uv1 uv2 2 Hu) as H2.
  pose proof (le_mono uv1 uv2 5 Hu) as H5.
  pose proof (le_mono uv1 uv2 7 Hu) as H7.
  pose proof (le_mono uv1 uv2 10 Hu) as H10.
  unfold uv_risk_level.
  destruct (Py.le uv2 2), (Py.le uv2 5), (Py.le uv2 7), (Py.le uv2 10);
    try rewrite (H2 eq_refl); try rewrite (H5 eq_refl);
    try rewrite (H7 eq_refl); try rewrite (H10 eq_refl);
    destruct (Py.le uv1 2), (Py.le uv1 5), (Py.le uv1 7), (Py.le uv1 10);
    cbn; lia.
Qed.

Lemma uv_risk_level_monotone_witness :
  (3 <= (15 # 2))%Q
  /\ (Spec.band_rank (uv_risk_level 3)
      <= Spec.band_rank (uv_risk_level (15 # 2)))%nat.
Proof.
  assert (H : (3 <= (15 # 2))%Q) by (apply Qle_bool_iff; reflexivity).
  split; [exact H |].
  exact (uv_risk_level_monotone 3 (15 # 2) H).
Defined.

(** ** Packing list without repetition *)

(** X22: no item occurs twice in the beach packing list, and every
    list starts with the five base items. *)
Theorem beach_packing_list_no_repeat (w : Weather) (uv : Q) :
  NoDup (generate_beach_packing_list w uv)
  /\ take 5 (generate_beach_packing_list w uv) = base_items.
Proof.
  unfold generate_beach_packing_list, append.
  destruct (Py.gt uv 8), (Py.gt (temp w) 30), (Py.gt (wind w) 15),
    (Py.str_in "rain" (Py.lower (conditions w)));
    (split; [apply (bool_decide_unpack _); vm_compute; exact I
            | reflexivity]).
Qed.

(** Samples of the simulated facilities. *)
Example beach_facilities_samples (coordinates : Q * Q) :
  beach_facilities_body (Some "Goa Beach") coordinates
    = ["Lifeguard"; "First Aid"; "Showers"; "Restrooms"]
  /\ beach_facilities_body (Some "goa") coordinates
     = ["Water Sports"; "Beach Shacks"]
  /\ beach_facilities_body (Some "PURİ Coast") coordinates
     = ["Changing Rooms"; "Beach Chairs"]
  /\ beach_facilities_body (Some "Marina Shore") coordinates = [].
Proof. repeat split. Qed.

(** A hazard written with the dotted capital I. *)
Example beach_score_dotted_capital :
  get_beach_safety_score 3 ["TSUNAMİ"] false = 5.
Proof. reflexivity. Qed.

(** A sample of the streamed guide: three fragments, one of them
    [None]. *)
Example stream_guide_sample :
  stream_guide [Some "Puri "; None; Some "is a city."]
  = [("Puri " ++ cursor)%string; ("Puri is a city." ++ cursor)%string;
     "Puri is a city."].
Proof. reflexivity. Qed.
